(** * Municipal expenses (TCE-SP): aggregation and historical series

    A shallow embedding of [expenses.py].  The pandas operations the module
    relies on (boolean-mask selection, [unique], [groupby(...).agg],
    [.loc], single-row frames, [append], index assignment) are modelled
    on lists; the functions of the module are then written on top of them
    in the order of the source.

    Amounts ([vl_despesa]) are the binary64 floats [get_expenses] parses
    them to.  The algorithm behind pandas' ['sum'] is not part of the
    module: the development takes the summation as a parameter
    ([series_sum]) and holds for any, and it evaluates the module on
    sample data with the two summations pandas has used, plain and
    compensated. *)

From stdpp Require Import base decidable list sorting strings.
From Stdlib Require Import ZArith Lia Ascii DecimalString DecimalZ PrimFloat.

Set Warnings "-inexact-float".

Local Open Scope Z_scope.

(** ** Exceptions and results *)

(** The exceptions that can leave the module: the [KeyError] of a failed
    [.loc] lookup carries the label that was looked up and nothing else;
    the [ValueError] is the length mismatch of an index assignment; any
    other exception comes from [get_expenses] (download, archive, parse). *)
Inductive exn : Type :=
  | KeyError (label : string)
  | ValueError (expected new : nat)
  | FetchError (what : string).

Inductive result (A : Type) : Type :=
  | Ok (a : A)
  | Raise (e : exn).
Arguments Ok {A} a.
Arguments Raise {A} e.

(** Sequencing: an exception ends the computation. *)
Global Instance result_bind : MBind result := λ A B k m,
  match m with
  | Ok a => k a
  | Raise e => Raise e
  end.

(** [for x in xs: s = body(x, s)], stopping at the first exception. *)
Fixpoint for_each {A S} (xs : list A) (body : A → S → result S) (s : S)
  : result S :=
  match xs with
  | [] => Ok s
  | x :: xs' => s' ← body x s; for_each xs' body s'
  end.

(** ** Expense records and tables *)

(** One line of the expenses CSV, with the four columns the module reads. *)
Record Expense : Type := mkExpense {
  ds_funcao_governo : string;      (* theme *)
  ds_subfuncao_governo : string;   (* subtheme *)
  tp_despesa : string;             (* payment status *)
  vl_despesa : float               (* amount *)
}.

(** A data frame of expenses: its rows, in order. *)
Abbreviation DataFrame := (list Expense).

(** ** pandas primitives *)

(** [col == v]: the boolean mask of a column against a scalar. *)
Definition eq_mask (col : list string) (v : string) : list bool :=
  (λ x, bool_decide (x = v)) <$> col.

(** [df[mask]]: the rows whose mask entry is true, in order. *)
Fixpoint getitem_mask {A} (rows : list A) (mask : list bool) : list A :=
  match rows, mask with
  | r :: rows', b :: mask' =>
      if b then r :: getitem_mask rows' mask' else getitem_mask rows' mask'
  | _, _ => []
  end.

(** [Series.unique()]: the distinct values in order of first appearance. *)
Fixpoint unique_from {A} `{EqDecision A} (seen : list A) (l : list A) : list A :=
  match l with
  | [] => []
  | x :: l' =>
      if decide (x ∈ seen) then unique_from seen l'
      else x :: unique_from (x :: seen) l'
  end.

Definition unique {A} `{EqDecision A} (l : list A) : list A := unique_from [] l.

(** Two summations of a column of floats that skip NaN, as pandas'
    grouped ['sum'] does: adding from left to right, and the same with
    Kahan's running compensation. *)
Definition plain_sum (l : list float) : float :=
  foldl (λ sumx val, if PrimFloat.eqb val val then PrimFloat.add sumx val
                     else sumx) 0%float l.

Definition kahan_step (acc : float * float) (val : float) : float * float :=
  if PrimFloat.eqb val val then
    let y := PrimFloat.sub val acc.2 in
    let t := PrimFloat.add acc.1 y in
    (t, PrimFloat.sub (PrimFloat.sub t acc.1) y)
  else acc.

Definition kahan_sum (l : list float) : float :=
  (foldl kahan_step (0%float, 0%float) l).1.

(** Order of a two-level index: lexicographic on the two labels. *)
Definition pair_le (p q : string * string) : Prop :=
  String.le p.1 q.1 ∧ (p.1 = q.1 → String.le p.2 q.2).

Global Instance pair_le_dec : RelDecision pair_le.
Proof. intros p q. unfold pair_le. apply _. Defined.

Section GroupBy.
Context {K : Type} `{EqDecision K}.
Context (R : relation K) `{!RelDecision R}.
Context {A : Type} (key : A → K).

(** The group labels of [groupby]: the distinct keys, sorted. *)
Definition group_keys (rows : list A) : list K :=
  merge_sort R (unique (key <$> rows)).

(** The rows of one group, in their original order. *)
Definition group_rows (rows : list A) (k : K) : list A :=
  filter (λ r, key r = k) rows.

(** [df.groupby(key)]: every label with its rows. *)
Definition groupby (rows : list A) : list (K * list A) :=
  (λ k, (k, group_rows rows k)) <$> group_keys rows.
End GroupBy.

(** [.loc[label]] on a frame indexed by [label]: the first row with that
    label, [KeyError label] when there is none. *)
Fixpoint loc {V} (label : string) (t : list (string * V)) : result V :=
  match t with
  | [] => Raise (KeyError label)
  | (k, v) :: t' => if decide (k = label) then Ok v else loc label t'
  end.

(** [.loc[label]] on a frame with a two-level index: the rows whose first
    level is [label], re-indexed by the second level; [KeyError label] when
    no row has it. *)
Definition loc_level0 {V} (label : string) (t : list ((string * string) * V))
  : result (list (string * V)) :=
  match filter (λ kv, kv.1.1 = label) t with
  | [] => Raise (KeyError label)
  | sel => Ok ((λ kv, (kv.1.2, kv.2)) <$> sel)
  end.

(** Decidable facts about the sample data are settled by evaluation. *)
Ltac by_decide := apply (bool_decide_unpack _); vm_compute; exact I.


(** ** The module's functions: filtering, enumeration, grouping *)

Section Aggregation.
(** The summation pandas runs for ['sum']. *)
Variable series_sum : list float → float.

Definition paid_marker : string := "Valor Pago".

Definition only_paid (df : DataFrame) : DataFrame :=
  getitem_mask df (eq_mask (tp_despesa <$> df) paid_marker).

Definition get_all_themes (df : DataFrame) : list string :=
  unique (ds_funcao_governo <$> df).

Definition get_all_subthemes_of (df : DataFrame) (theme : string) : list string :=
  unique (ds_subfuncao_governo <$>
            getitem_mask df (eq_mask (ds_funcao_governo <$> df) theme)).

(** A row of the frame [group_by_theme] returns. *)
Record ThemeRow : Type := mkThemeRow {
  theme_total : float;             (* vl_despesa: 'sum' *)
  theme_subthemes : list string    (* ds_subfuncao_governo: 'unique' *)
}.

Definition agg_theme (g : list Expense) : ThemeRow :=
  {| theme_total := series_sum (vl_despesa <$> g);
     theme_subthemes := unique (ds_subfuncao_governo <$> g) |}.

Definition group_by_theme (df : DataFrame) : list (string * ThemeRow) :=
  (λ kg, (kg.1, agg_theme kg.2)) <$> groupby String.le ds_funcao_governo df.

Definition theme_key (r : Expense) : string * string :=
  (ds_funcao_governo r, ds_subfuncao_governo r).

Definition group_by_theme_and_subtheme (df : DataFrame)
  : list ((string * string) * float) :=
  (λ kg, (kg.1, series_sum (vl_despesa <$> kg.2))) <$> groupby pair_le theme_key df.

Definition group_by_subtheme (df : DataFrame) (theme : string)
  : result (list (string * float)) :=
  loc_level0 theme (group_by_theme_and_subtheme df).

(** The total of one (theme, subtheme) pair: the sum over the rows that
    carry both labels. *)
Definition pair_total (df : DataFrame) (theme subtheme : string) : float :=
  series_sum (vl_despesa <$>
    filter (λ r, ds_funcao_governo r = theme ∧ ds_subfuncao_governo r = subtheme) df).

(** ** Result frames *)

(** The cells of one row of a result frame, by column name and in column
    order.  A column the row does not list is NaN in that row. *)
Abbreviation Row := (list (string * float)).

(** [year_df[name] = [v]] on a frame of at most one row: an existing
    column is overwritten in place, a new one is added last.  On the empty
    frame [pd.DataFrame()] (no column, no row; the empty list here) the
    assignment creates the row. *)
Fixpoint setitem (name : string) (v : float) (row : Row) : Row :=
  match row with
  | [] => [(name, v)]
  | (c, w) :: row' =>
      if decide (c = name) then (c, v) :: row' else (c, w) :: setitem name v row'
  end.

(** A frame of several rows: column labels, row labels, rows. *)
Record Frame : Type := mkFrame {
  columns : list string;
  index : list Z;
  data : list Row
}.

(** [pd.DataFrame()] *)
Definition empty_frame : Frame := mkFrame [] [] [].

(** [pd.DataFrame.append(full_df, year_df)]: the rows of [year_df] (one,
    labelled 0, or none when the frame is empty) follow those of
    [full_df]; columns new to [full_df] are added after its own. *)
Definition append (full_df : Frame) (year_df : Row) : Frame :=
  match year_df with
  | [] => full_df
  | _ =>
      {| columns := columns full_df ++
                    filter (λ c, c ∉ columns full_df) (year_df.*1);
         index := index full_df ++ [0];
         data := data full_df ++ [year_df] |}
  end.

(** [full_df.index = labels]: a frame without columns takes any number of
    labels, and has that many rows, without cells, afterwards; a frame
    with columns is refused with a [ValueError] unless there are as many
    labels as rows. *)
Definition set_index (full_df : Frame) (labels : list Z) : result Frame :=
  if decide (columns full_df = [])
  then Ok {| columns := []; index := labels;
             data := replicate (length labels) [] |}
  else if decide (length (data full_df) = length labels)
  then Ok {| columns := columns full_df; index := labels; data := data full_df |}
  else Raise (ValueError (length (data full_df)) (length labels)).

(** The cell of a row under a column: [None] is NaN. *)
Fixpoint row_cell (c : string) (row : Row) : option float :=
  match row with
  | [] => None
  | (k, v) :: row' => if decide (k = c) then Some v else row_cell c row'
  end.

(** The cell at row position [i] and column [c]. *)
Definition cell (f : Frame) (i : nat) (c : string) : option float :=
  row ← data f !! i; row_cell c row.

(** ** Historical series *)

(** ["vl_despesa_" + theme] *)
Definition theme_column (theme : string) : string := "vl_despesa_" +:+ theme.

(** ["vl_despesa_{}_{}".format(theme, subtheme)] *)
Definition subtheme_column (theme subtheme : string) : string :=
  "vl_despesa_" +:+ theme +:+ "_" +:+ subtheme.

Section Historical.
(** The record source: downloads and parses the expenses of a city and
    year, or raises. *)
Variable get_expenses : string → Z → result DataFrame.

(** The loop over [themes] of [get_themed_historical]. *)
Definition themed_year_df (paid_df : DataFrame) (themes : list string)
  : result Row :=
  for_each themes (λ theme year_df,
    theme_df ← loc theme (group_by_theme paid_df);
    Ok (setitem (theme_column theme) (theme_total theme_df) year_df)) [].

Definition get_themed_historical (city : string) (years : list Z)
    (themes : list string) : result Frame :=
  full_df ← for_each years (λ year full_df,
    df ← get_expenses city year;
    let paid_df := only_paid df in
    year_df ← themed_year_df paid_df themes;
    Ok (append full_df year_df)) empty_frame;
  set_index full_df years.

(** The loop over [subthemes] of [get_subthemed_historical]. *)
Definition subthemed_year_df (paid_df : DataFrame)
    (subthemes : list (string * string)) : result Row :=
  for_each subthemes (λ ts year_df,
    by_subtheme ← group_by_subtheme paid_df ts.1;
    theme_df ← loc ts.2 by_subtheme;
    Ok (setitem (subtheme_column ts.1 ts.2) theme_df year_df)) [].

Definition get_subthemed_historical (city : string) (years : list Z)
    (subthemes : list (string * string)) : result Frame :=
  full_df ← for_each years (λ year full_df,
    df ← get_expenses city year;
    let paid_df := only_paid df in
    year_df ← subthemed_year_df paid_df subthemes;
    Ok (append full_df year_df)) empty_frame;
  set_index full_df years.

(** The loop over [themes] of [get_all_subthemes_historical]. *)
Definition all_subthemes_year_df (paid_df : DataFrame) (themes : list string)
  : result Row :=
  for_each themes (λ theme year_df,
    let subthemes := get_all_subthemes_of paid_df theme in
    subthemes_df ← group_by_subtheme paid_df theme;
    for_each subthemes (λ subtheme year_df,
      subtheme_df ← loc subtheme subthemes_df;
      Ok (setitem (subtheme_column theme subtheme) subtheme_df year_df))
      year_df) [].

Definition get_all_subthemes_historical (city : string) (years : list Z)
    (themes : list string) : result Frame :=
  full_df ← for_each years (λ year full_df,
    df ← get_expenses city year;
    let paid_df := only_paid df in
    year_df ← all_subthemes_year_df paid_df themes;
    Ok (append full_df year_df)) empty_frame;
  set_index full_df years.

(** The three functions share their loop over [years]; they differ in
    the row [year_row] builds from the paid-filtered table of a year.
    This is that loop, used to reason about the three at once. *)
Definition year_step (year_row : DataFrame → result Row) (city : string)
    (year : Z) (full_df : Frame) : result Frame :=
  df ← get_expenses city year;
  year_df ← year_row (only_paid df);
  Ok (append full_df year_df).

Definition historical_loop (year_row : DataFrame → result Row)
    (city : string) (years : list Z) : result Frame :=
  full_df ← for_each years (year_step year_row city) empty_frame;
  set_index full_df years.

(** The iteration of that loop for [year] runs to its end and appends
    [row]. *)
Definition year_yields (year_row : DataFrame → result Row) (city : string)
    (year : Z) (row : Row) : Prop :=
  ∃ df, get_expenses city year = Ok df ∧ year_row (only_paid df) = Ok row.
End Historical.

(** The total of the paid records of a theme. *)
Definition paid_theme_total (df : DataFrame) (theme : string) : float :=
  series_sum (vl_despesa <$>
    filter (λ r, ds_funcao_governo r = theme) (only_paid df)).

(** The (theme, subtheme) pairs the loops of
    [get_all_subthemes_historical] visit for a year, in order: for each
    requested theme, the subthemes discovered for it. *)
Definition discovered_pairs (paid_df : DataFrame) (themes : list string)
  : list (string * string) :=
  theme ← themes;
  (λ subtheme, (theme, subtheme)) <$> get_all_subthemes_of paid_df theme.

(** ** The names [get_expenses] builds *)

(** [str(year)]: the decimal digits of an integer, after a minus sign when
    it is negative. *)
Definition str_int (n : Z) : string := NilZero.string_of_int (Z.to_int n).

Definition url_prefix : string :=
  "https://transparencia.tce.sp.gov.br/sites/default/" +:+ "files/csv/despesas".

(** [url_prefix + "-" + city + "-" + str(year) + ".zip"] *)
Definition expenses_url (city : string) (year : Z) : string :=
  ((((url_prefix +:+ "-") +:+ city) +:+ "-") +:+ str_int year) +:+ ".zip".

(** ['data/expense_{}_{}.zip'.format(city, year)] *)
Definition expenses_zipfile (city : string) (year : Z) : string :=
  "data/expense_" +:+ city +:+ "_" +:+ str_int year +:+ ".zip".

(** ** Sample data *)

Definition sample_table : DataFrame :=
  [ mkExpense "Saude" "Hospitais" "Valor Pago" 100.5;
    mkExpense "Saude" "Clinicas" "Valor Pago" 50.25;
    mkExpense "Saude" "Hospitais" "Empenhado" 999;
    mkExpense "Educacao" "Ensino Basico" "Valor Pago" 7;
    mkExpense "Saude" "Hospitais" "Valor Pago" 0.25 ]%float.

Definition sample_table_2020 : DataFrame :=
  [ mkExpense "Saude" "Hospitais" "Valor Pago" 200;
    mkExpense "Saude" "Vigilancia" "Empenhado" 3;
    mkExpense "Cultura" "Museus" "Empenhado" 40 ]%float.

Definition sample_table_2021 : DataFrame :=
  [ mkExpense "Educacao" "Ensino Basico" "Valor Pago" 9 ]%float.





(** A record source with three years of one city and one of another. *)
Definition sample_source (city : string) (year : Z) : result DataFrame :=
  if decide (city = "campinas") then
    if decide (year = 2019) then Ok sample_table
    else if decide (year = 2020) then Ok sample_table_2020
    else if decide (year = 2021) then Ok sample_table_2021
    else Raise (FetchError "HTTP Error 404")
  else if decide (city = "santos") then
    if decide (year = 2021) then Ok sample_table_2020
    else Raise (FetchError "HTTP Error 404")
  else Raise (FetchError "HTTP Error 404").

(** A table with two pairs whose column names coincide, and a source that
    returns it for every request. *)
Definition sample_table_shared : DataFrame :=
  [ mkExpense "A_B" "C" "Valor Pago" 100;
    mkExpense "A" "B_C" "Valor Pago" 7 ]%float.

Definition sample_source_shared (city : string) (year : Z) : result DataFrame :=
  Ok sample_table_shared.

(** * Properties *)

(** ** Mask selection and the payment filter *)

Lemma getitem_eq_mask {A} (f : A → string) (v : string) (rows : list A) :
  getitem_mask rows (eq_mask (f <$> rows) v) = filter (λ r, f r = v) rows.
Proof.
  induction rows as [|r rows IH]; [done|].
  rewrite filter_cons, <- IH. unfold eq_mask. rewrite !fmap_cons.
  cbn [getitem_mask]. destruct (decide (f r = v)) as [E|E].
  - by rewrite bool_decide_eq_true_2.
  - by rewrite bool_decide_eq_false_2.
Qed.

Lemma only_paid_filter (df : DataFrame) :
  only_paid df = filter (λ r, tp_despesa r = paid_marker) df.
Proof. apply getitem_eq_mask. Qed.

Lemma sublist_all_filter {A} (P : A → Prop) `{!∀ x, Decision (P x)} (l k : list A) :
  l `sublist_of` k → Forall P l → l `sublist_of` filter P k.
Proof.
  induction 1 as [|x l k Hs IH|x l k Hs IH]; intros HP.
  - constructor.
  - apply Forall_cons in HP as [Hx HP].
    rewrite filter_cons_True by done. constructor. auto.
  - rewrite filter_cons. destruct (decide (P x)); [constructor|]; auto.
Qed.

(** C8: [only_paid] returns exactly the subsequence of the records whose
    status is the paid marker: it is the order-preserving selection of
    those records, a subsequence of the table made of paid records only
    that contains every other such subsequence; the empty table gives the
    empty table. *)
Theorem only_paid_subsequence (df : DataFrame) :
  only_paid df = filter (λ r, tp_despesa r = paid_marker) df
  ∧ only_paid df `sublist_of` df
  ∧ Forall (λ r, tp_despesa r = paid_marker) (only_paid df)
  ∧ (∀ l, l `sublist_of` df → Forall (λ r, tp_despesa r = paid_marker) l →
          l `sublist_of` only_paid df)
  ∧ only_paid [] = [].
Proof.
  rewrite only_paid_filter. split_and!.
  - done.
  - apply sublist_filter.
  - apply Forall_forall. intros r Hr. by apply list_elem_of_filter in Hr as [? _].
  - intros l Hl HP. by apply sublist_all_filter.
  - done.
Qed.

(** C9: [only_paid] is idempotent. *)
Theorem only_paid_idempotent (df : DataFrame) :
  only_paid (only_paid df) = only_paid df.
Proof.
  rewrite !only_paid_filter, list_filter_filter.
  apply list_filter_iff. intros r. tauto.
Qed.

(** ** [unique] *)

Section Unique.
Context {A : Type} `{EqDecision A}.
Implicit Types l k seen : list A.

Lemma elem_of_unique_from seen l x :
  x ∈ unique_from seen l ↔ x ∈ l ∧ x ∉ seen.
Proof.
  revert seen. induction l as [|y l IH]; intros seen; simpl.
  - split; [by intros ?%elem_of_nil|by intros [?%elem_of_nil _]].
  - destruct (decide (y ∈ seen)) as [Hy|Hy].
    + rewrite IH, elem_of_cons. split; [tauto|].
      intros [[->|?] ?]; tauto.
    + rewrite elem_of_cons, IH, !elem_of_cons.
      destruct (decide (x = y)) as [->|]; tauto.
Qed.

Lemma NoDup_unique_from seen l : NoDup (unique_from seen l).
Proof.
  revert seen. induction l as [|y l IH]; intros seen; simpl.
  - constructor.
  - destruct (decide (y ∈ seen)); [apply IH|].
    constructor; [|apply IH].
    rewrite elem_of_unique_from, elem_of_cons. tauto.
Qed.

Lemma elem_of_unique l x : x ∈ unique l ↔ x ∈ l.
Proof.
  unfold unique. rewrite elem_of_unique_from.
  split; [tauto|]. intros ?. split; [done|]. apply not_elem_of_nil.
Qed.

Lemma NoDup_unique l : NoDup (unique l).
Proof. apply NoDup_unique_from. Qed.


Lemma unique_nil l : unique l = [] ↔ l = [].
Proof.
  split; [|by intros ->].
  destruct l as [|x l]; [done|]. intros Hu.
  assert (x ∈ unique (x :: l)) as Hx by (apply elem_of_unique; left).
  rewrite Hu in Hx. by apply elem_of_nil in Hx.
Qed.
End Unique.

(** ** Partitions *)

(** The groups of a table partition it: over a duplicate-free list of
    labels that covers every row, the rows of the groups are the rows of
    the table, each once. *)
Lemma filter_partition {A K} `{EqDecision K} (key : A → K)
    (ks : list K) (rows : list A) :
  NoDup ks → (∀ r, r ∈ rows → key r ∈ ks) →
  concat ((λ k, filter (λ r, key r = k) rows) <$> ks) ≡ₚ rows.
Proof.
  revert rows. induction ks as [|k ks IH]; intros rows Hnd Hcov.
  - destruct rows as [|r rows]; [done|].
    by destruct (not_elem_of_nil (key r)); apply Hcov; left.
  - apply NoDup_cons in Hnd as [Hk Hnd].
    rewrite fmap_cons, concat_cons.
    etrans; [|apply (filter_app_complement (λ r, key r = k))].
    apply Permutation_app; [done|].
    rewrite <- (IH (filter (λ r, ¬ key r = k) rows)); [|done|].
    + apply reflexive_eq. f_equal. apply list_fmap_ext. intros i k' Hk'.
      apply list_elem_of_lookup_2 in Hk'.
      rewrite list_filter_filter. apply list_filter_iff.
      intros r. split; [|tauto]. intros ->. split; [done|]. by intros ->.
    + intros r [Hr Hin]%list_elem_of_filter.
      apply Hcov in Hin. apply elem_of_cons in Hin as [?|?]; [done|done].
Qed.

(** ** The order of the two-level index *)

Global Instance pair_le_trans : Transitive pair_le.
Proof.
  intros p q r [Hpq1 Hpq2] [Hqr1 Hqr2]. split; [by etrans|].
  intros Hpr. rewrite Hpr in Hpq1.
  assert (q.1 = r.1) as Hq by (by apply (anti_symm String.le)).
  etrans; [apply Hpq2; congruence|by apply Hqr2].
Qed.

Global Instance pair_le_antisymm : AntiSymm (=) pair_le.
Proof.
  intros [p1 p2] [q1 q2] [H1 H2] [H3 H4]; simpl in *.
  assert (p1 = q1) as -> by (by apply (anti_symm String.le)).
  f_equal. apply (anti_symm String.le); auto.
Qed.

Global Instance pair_le_total : Total pair_le.
Proof.
  intros p q. unfold pair_le. destruct (decide (p.1 = q.1)) as [Heq|Hne].
  - rewrite Heq. destruct (total String.le p.2 q.2); [left|right]; done.
  - destruct (total String.le p.1 q.1); [left|right]; split; try done;
      intros ?; congruence.
Qed.

(** ** [groupby] *)

Section GroupByFacts.
Context {K : Type} `{EqDecision K}.
Context (R : relation K) `{!RelDecision R}.
Context `{!Transitive R, !AntiSymm (=) R, !Total R}.
Context {A : Type} (key : A → K).
Implicit Types rows : list A.

Lemma elem_of_group_keys rows k :
  k ∈ group_keys R key rows ↔ k ∈ key <$> rows.
Proof.
  unfold group_keys. by rewrite merge_sort_Permutation, elem_of_unique.
Qed.

Lemma NoDup_group_keys rows : NoDup (group_keys R key rows).
Proof.
  unfold group_keys. rewrite merge_sort_Permutation. apply NoDup_unique.
Qed.

Lemma StronglySorted_group_keys rows :
  StronglySorted R (group_keys R key rows).
Proof. apply StronglySorted_merge_sort; apply _. Qed.


Lemma group_keys_cover rows r : r ∈ rows → key r ∈ group_keys R key rows.
Proof. intros Hr. apply elem_of_group_keys. by apply list_elem_of_fmap_2. Qed.

End GroupByFacts.

(** ** Label lookups *)

Lemma filter_fmap_key {A B} (P : A → Prop) `{!∀ x, Decision (P x)}
    (Q : B → Prop) `{!∀ y, Decision (Q y)} (f : A → B) (l : list A) :
  (∀ x, Q (f x) ↔ P x) → filter Q (f <$> l) = f <$> filter P l.
Proof.
  intros HPQ. induction l as [|x l IH]; [done|].
  rewrite fmap_cons, !filter_cons, IH.
  destruct (decide (Q (f x))) as [HQ|HQ], (decide (P x)) as [HP|HP];
    try done; by apply HPQ in HQ || apply HPQ in HP.
Qed.

Lemma StronglySorted_filter {A} (R : relation A) (P : A → Prop)
    `{!∀ x, Decision (P x)} (l : list A) :
  StronglySorted R l → StronglySorted R (filter P l).
Proof.
  induction 1 as [|x l Hs IH Hx]; [constructor|].
  rewrite filter_cons. destruct (decide (P x)); [|done].
  constructor; [done|].
  apply Forall_forall. intros y [_ Hy]%list_elem_of_filter.
  by eapply Forall_forall in Hx.
Qed.

Lemma loc_fmap_key {V} (g : string → V) (ks : list string) (label : string) :
  loc label ((λ k, (k, g k)) <$> ks)
  = if decide (label ∈ ks) then Ok (g label) else Raise (KeyError label).
Proof.
  induction ks as [|k ks IH].
  - destruct (decide (label ∈ [])) as [Hin|]; [by apply elem_of_nil in Hin|done].
  - rewrite fmap_cons. cbn [loc]. destruct (decide (k = label)) as [->|Hne].
    + rewrite decide_True; [done|left].
    + rewrite IH. destruct (decide (label ∈ ks)) as [Hin|Hin].
      * rewrite decide_True; [done|by right].
      * rewrite decide_False; [done|].
        intros [?|?]%elem_of_cons; congruence.
Qed.

Lemma group_by_theme_unfold (df : DataFrame) :
  group_by_theme df
  = (λ k, (k, agg_theme (group_rows ds_funcao_governo df k)))
      <$> group_keys String.le ds_funcao_governo df.
Proof. unfold group_by_theme, groupby. by rewrite <- list_fmap_compose. Qed.

(** Looking a theme up in the frame of [group_by_theme]. *)
Lemma loc_group_by_theme (df : DataFrame) (theme : string) :
  loc theme (group_by_theme df)
  = if decide (theme ∈ ds_funcao_governo <$> df)
    then Ok (agg_theme (filter (λ r, ds_funcao_governo r = theme) df))
    else Raise (KeyError theme).
Proof.
  rewrite group_by_theme_unfold, loc_fmap_key.
  destruct (decide (theme ∈ group_keys _ _ df)) as [Hin|Hin];
    apply (elem_of_group_keys String.le) in Hin || rewrite (elem_of_group_keys String.le) in Hin.
  - by rewrite decide_True.
  - by rewrite decide_False.
Qed.

Lemma group_by_theme_and_subtheme_unfold (df : DataFrame) :
  group_by_theme_and_subtheme df
  = (λ k, (k, pair_total df k.1 k.2)) <$> group_keys pair_le theme_key df.
Proof.
  unfold group_by_theme_and_subtheme, groupby. rewrite <- list_fmap_compose.
  apply list_fmap_ext. intros _ [t s] _. simpl. unfold pair_total, group_rows.
  do 3 f_equal. apply list_filter_iff. intros r. unfold theme_key.
  split; [by intros [= -> ->]|by intros [-> ->]].
Qed.

Lemma elem_of_get_all_subthemes_of (df : DataFrame) (theme subtheme : string) :
  subtheme ∈ get_all_subthemes_of df theme
  ↔ ∃ r, r ∈ df ∧ ds_funcao_governo r = theme ∧ ds_subfuncao_governo r = subtheme.
Proof.
  unfold get_all_subthemes_of.
  rewrite elem_of_unique, getitem_eq_mask, list_elem_of_fmap.
  split.
  - intros (r & -> & [Ht Hr]%list_elem_of_filter). eauto.
  - intros (r & Hr & Ht & <-). exists r. split; [done|].
    by apply list_elem_of_filter.
Qed.

Lemma elem_of_theme_keys (df : DataFrame) (theme subtheme : string) :
  (theme, subtheme) ∈ group_keys pair_le theme_key df
  ↔ ∃ r, r ∈ df ∧ ds_funcao_governo r = theme ∧ ds_subfuncao_governo r = subtheme.
Proof.
  rewrite (elem_of_group_keys pair_le), list_elem_of_fmap. unfold theme_key.
  split.
  - intros (r & [= -> ->] & Hr). eauto.
  - intros (r & Hr & <- & <-). eauto.
Qed.

Lemma StronglySorted_second_level (theme : string) (ks : list (string * string)) :
  Forall (λ k, k.1 = theme) ks →
  StronglySorted pair_le ks → StronglySorted String.le (ks.*2).
Proof.
  intros Hall. induction 1 as [|k ks Hs IH Hk]; [constructor|].
  apply Forall_cons in Hall as [Hkt Hall].
  rewrite fmap_cons. constructor; [by apply IH|].
  apply Forall_fmap, Forall_forall. intros k' Hk'. simpl.
  eapply Forall_forall in Hk as [_ Hle]; [|done].
  eapply Forall_forall in Hall; [|done]. apply Hle. congruence.
Qed.

(** The second-level labels under a theme, as [groupby] orders them, are
    the sorted distinct subthemes of the theme. *)
Lemma second_level_labels (df : DataFrame) (theme : string) :
  (filter (λ k, k.1 = theme) (group_keys pair_le theme_key df)).*2
  = merge_sort String.le (get_all_subthemes_of df theme).
Proof.
  set (sel := filter _ _).
  assert (Forall (λ k, k.1 = theme) sel) as Hall.
  { apply Forall_forall. by intros k [? _]%list_elem_of_filter. }
  assert (NoDup sel) as Hnd.
  { apply NoDup_filter, (NoDup_group_keys pair_le). }
  apply (StronglySorted_unique String.le).
  - apply (StronglySorted_second_level theme); [done|].
    apply StronglySorted_filter, (StronglySorted_group_keys pair_le).
  - apply StronglySorted_merge_sort; apply _.
  - apply NoDup_Permutation.
    + apply NoDup_fmap_2_strong; [|done].
      intros [t1 s1] [t2 s2] H1 H2; simpl; intros ->.
      eapply Forall_forall in H1; [|exact Hall].
      eapply Forall_forall in H2; [|exact Hall]. simpl in *. congruence.
    + rewrite merge_sort_Permutation. apply NoDup_unique.
    + intros s. rewrite merge_sort_Permutation, elem_of_get_all_subthemes_of.
      rewrite <- elem_of_theme_keys, list_elem_of_fmap. split.
      * intros ([t s'] & -> & [Ht Hk]%list_elem_of_filter). simpl in *. by subst.
      * intros Hk. exists (theme, s). split; [done|]. by apply list_elem_of_filter.
Qed.

Lemma get_all_subthemes_of_nil (df : DataFrame) (theme : string) :
  get_all_subthemes_of df theme = [] ↔ theme ∉ ds_funcao_governo <$> df.
Proof.
  unfold get_all_subthemes_of. rewrite unique_nil, getitem_eq_mask.
  rewrite list_elem_of_fmap. split.
  - intros Hnil (r & -> & Hr). apply fmap_nil_inv in Hnil.
    by eapply (filter_nil_not_elem_of _ _ r) in Hnil.
  - intros Hno. destruct (filter _ df) as [|r l] eqn:Hf; [done|].
    assert (r ∈ filter (λ r, ds_funcao_governo r = theme) df) as Hr
      by (rewrite Hf; left).
    apply list_elem_of_filter in Hr as [Ht Hr]. destruct Hno; eauto.
Qed.

(** [group_by_subtheme] in closed form: a [KeyError] carrying the theme
    when no row has it, otherwise the sorted distinct subthemes of the
    theme, each with the total of its rows. *)
Lemma group_by_subtheme_unfold (df : DataFrame) (theme : string) :
  group_by_subtheme df theme
  = if decide (theme ∈ ds_funcao_governo <$> df)
    then Ok ((λ s, (s, pair_total df theme s))
               <$> merge_sort String.le (get_all_subthemes_of df theme))
    else Raise (KeyError theme).
Proof.
  unfold group_by_subtheme, loc_level0.
  rewrite group_by_theme_and_subtheme_unfold.
  rewrite (filter_fmap_key (λ k, k.1 = theme)) by done.
  rewrite <- second_level_labels.
  set (sel := filter _ (group_keys _ _ _)).
  assert (∀ k, k ∈ sel → k.1 = theme) as Hall
    by (by intros k [? _]%list_elem_of_filter).
  assert (sel = [] ↔ theme ∉ ds_funcao_governo <$> df) as Hnil.
  { split.
    - intros Hsel (r & -> & Hr)%list_elem_of_fmap.
      assert (theme_key r ∈ sel) as Hk.
      { apply list_elem_of_filter. split; [done|].
        by apply (group_keys_cover pair_le). }
      rewrite Hsel in Hk. by apply elem_of_nil in Hk.
    - intros Hno. destruct sel as [|[t s] sel'] eqn:Hsel; [done|].
      assert ((t, s) ∈ sel) as [Ht Hk]%list_elem_of_filter
        by (rewrite Hsel; left).
      apply elem_of_theme_keys in Hk as (r & Hr & <- & _). simpl in Ht.
      destruct Hno. rewrite <- Ht. by apply list_elem_of_fmap_2. }
  clearbody sel.
  destruct (decide (theme ∈ ds_funcao_governo <$> df)) as [Hin|Hin].
  - trans (Ok ((λ kv : string * string * float, (kv.1.2, kv.2)) <$>
               ((λ k, (k, pair_total df k.1 k.2)) <$> sel))).
    { destruct sel; [by destruct (proj1 Hnil eq_refl)|done]. }
    f_equal. rewrite <- !list_fmap_compose. apply list_fmap_ext.
    intros _ [t s] Hk%list_elem_of_lookup_2. apply Hall in Hk. simpl in *.
    by subst.
  - apply Hnil in Hin. by rewrite Hin.
Qed.

(** Looking a subtheme up in the frame [group_by_subtheme] returns. *)
Lemma loc_subtheme_totals (df : DataFrame) (theme subtheme : string) :
  loc subtheme ((λ s, (s, pair_total df theme s))
                  <$> merge_sort String.le (get_all_subthemes_of df theme))
  = if decide (subtheme ∈ get_all_subthemes_of df theme)
    then Ok (pair_total df theme subtheme)
    else Raise (KeyError subtheme).
Proof.
  rewrite loc_fmap_key.
  destruct (decide (subtheme ∈ merge_sort _ _)) as [Hin|Hin];
    rewrite merge_sort_Permutation in Hin.
  - by rewrite decide_True.
  - by rewrite decide_False.
Qed.


Lemma group_by_theme_and_subtheme_labels (df : DataFrame) :
  (group_by_theme_and_subtheme df).*1 = group_keys pair_le theme_key df.
Proof.
  rewrite group_by_theme_and_subtheme_unfold, <- list_fmap_compose.
  apply list_fmap_id.
Qed.




(** C5: [group_by_subtheme] raises the lookup's [KeyError] for a theme no
    record of the table has; for a theme some record has, it returns the
    per-subtheme totals of the theme: one row per distinct subtheme, in
    label order, with the sum of the amounts of the theme's records under
    that subtheme, and at least one row. *)
Theorem group_by_subtheme_raises_or_totals (df : DataFrame) (theme : string) :
  (theme ∉ ds_funcao_governo <$> df →
     group_by_subtheme df theme = Raise (KeyError theme))
  ∧ (theme ∈ ds_funcao_governo <$> df →
     group_by_subtheme df theme
     = Ok ((λ s, (s, pair_total df theme s))
             <$> merge_sort String.le (get_all_subthemes_of df theme))
     ∧ get_all_subthemes_of df theme ≠ []).
Proof.
  rewrite group_by_subtheme_unfold. split; intros Hin.
  - by rewrite decide_False.
  - rewrite decide_True by done. split; [done|].
    by intros Hnil%get_all_subthemes_of_nil.
Qed.

(** C6, as stated, fails: for a theme no record has, the enumeration
    returns the empty array; nothing is raised. *)
Lemma get_all_subthemes_of_absent_theme_no_error :
  ("Cultura" ∉ ds_funcao_governo <$> sample_table)
  ∧ get_all_subthemes_of sample_table "Cultura" = []
  ∧ (∀ e : exn, Ok (get_all_subthemes_of sample_table "Cultura") ≠ Raise e).
Proof.
  split_and!.
  - apply (bool_decide_unpack _). vm_compute. exact I.
  - reflexivity.
  - intros e. discriminate.
Qed.

(** C6, amended: [get_all_subthemes_of] never raises; it returns the
    distinct subthemes of the records of the theme, without repetition,
    which is the empty enumeration exactly when no record has the theme. *)
Theorem get_all_subthemes_of_distinct (df : DataFrame) (theme : string) :
  (get_all_subthemes_of df theme = [] ↔ theme ∉ ds_funcao_governo <$> df)
  ∧ NoDup (get_all_subthemes_of df theme)
  ∧ (∀ s, s ∈ get_all_subthemes_of df theme
          ↔ ∃ r, r ∈ df ∧ ds_funcao_governo r = theme
                 ∧ ds_subfuncao_governo r = s).
Proof.
  split_and!.
  - apply get_all_subthemes_of_nil.
  - apply NoDup_unique.
  - intros s. apply elem_of_get_all_subthemes_of.
Qed.

(** ** Loops *)

Lemma bind_Ok {A B} (m : result A) (k : A → result B) (b : B) :
  (x ← m; k x) = Ok b ↔ ∃ a, m = Ok a ∧ k a = Ok b.
Proof.
  destruct m as [a|e]; simpl.
  - split; [eauto|]. by intros (a' & [= ->] & ?).
  - split; [done|]. by intros (? & ? & ?).
Qed.

Lemma bind_Raise {A B} (m : result A) (k : A → result B) (e : exn) :
  (x ← m; k x) = Raise e ↔ m = Raise e ∨ ∃ a, m = Ok a ∧ k a = Raise e.
Proof.
  destruct m as [a|e']; simpl.
  - split; [eauto|]. by intros [?|(a' & [= ->] & ?)].
  - split; [intros [= ->]; by left|]. by intros [[= ->]|(? & ? & ?)].
Qed.

(** A property the loop body preserves holds when the loop ends normally. *)
Lemma for_each_invariant {A S} (I : S → Prop) (xs : list A)
    (body : A → S → result S) (s s' : S) :
  (∀ x t t', x ∈ xs → I t → body x t = Ok t' → I t') →
  I s → for_each xs body s = Ok s' → I s'.
Proof.
  revert s. induction xs as [|x xs IH]; intros s Hbody Hs; simpl.
  - by intros [= <-].
  - intros (t & Hx & Hrest)%bind_Ok. apply (IH t); [|by eapply Hbody; [left|..]|done].
    intros ????. apply Hbody. by right.
Qed.

(** A loop whose body cannot fail is a left fold. *)
Lemma for_each_total {A S} (xs : list A) (body : A → S → result S)
    (step : S → A → S) (s : S) :
  (∀ x t, x ∈ xs → body x t = Ok (step t x)) →
  for_each xs body s = Ok (foldl step s xs).
Proof.
  revert s. induction xs as [|x xs IH]; intros s Hbody; simpl; [done|].
  rewrite Hbody by left. simpl. apply IH. intros ???. apply Hbody. by right.
Qed.

(** A loop one of whose iterations must fail ends with the exception of
    its first failing iteration. *)
Lemma for_each_raises {A S} (xs : list A) (body : A → S → result S) (s : S)
    (x : A) :
  x ∈ xs → (∀ t, ∃ e, body x t = Raise e) →
  ∃ e x' t, x' ∈ xs ∧ body x' t = Raise e ∧ for_each xs body s = Raise e.
Proof.
  intros Hx Hfail. revert s.
  induction xs as [|y xs IH]; intros s; [by apply elem_of_nil in Hx|].
  simpl. destruct (body y s) as [t|e] eqn:Hy; simpl.
  - apply elem_of_cons in Hx as [->|Hx].
    + destruct (Hfail s) as [e He]. congruence.
    + destruct (IH Hx t) as (e & x' & t' & ? & ? & ?).
      exists e, x', t'. split_and!; [by right|done..].
  - exists e, y, s. split_and!; [left|done..].
Qed.

(** A loop that ends normally ran every iteration to its end. *)
Lemma for_each_Ok_all {A S} (Q : A → Prop) (xs : list A)
    (body : A → S → result S) (s s' : S) :
  (∀ x t t', body x t = Ok t' → Q x) →
  for_each xs body s = Ok s' → Forall Q xs.
Proof.
  intros Hbody. revert s. induction xs as [|x xs IH]; intros s; simpl; [done|].
  intros (t & Hx & Hrest)%bind_Ok. constructor; [by eapply Hbody|by eapply IH].
Qed.

(** A loop that raises does so in its first failing iteration: the
    iterations before it ran to their end. *)
Lemma for_each_first_failure {A S} (Q : A → Prop) (xs : list A)
    (body : A → S → result S) (s : S) (e : exn) :
  (∀ x t t', body x t = Ok t' → Q x) →
  for_each xs body s = Raise e →
  ∃ before x after t,
    xs = before ++ x :: after ∧ Forall Q before ∧ body x t = Raise e.
Proof.
  intros Hbody. revert s. induction xs as [|x xs IH]; intros s; simpl; [done|].
  intros [Hx|(t & Hx & Hrest)]%bind_Raise.
  - by exists [], x, xs, s.
  - destruct (IH _ Hrest) as (before & x' & after & t' & -> & Hbefore & Hx').
    exists (x :: before), x', after, t'. split_and!; [done| |done].
    constructor; [by eapply Hbody|done].
Qed.

(** ** Rows *)

Lemma row_cell_setitem (c c' : string) (v : float) (row : Row) :
  row_cell c' (setitem c v row)
  = if decide (c = c') then Some v else row_cell c' row.
Proof.
  induction row as [|[k w] row IH]; simpl.
  - by destruct (decide (c = c')).
  - destruct (decide (k = c)) as [->|Hk]; simpl.
    + by destruct (decide (c = c')).
    + destruct (decide (k = c')) as [->|Hk'].
      * by rewrite decide_False by done.
      * done.
Qed.

Lemma setitem_columns (c : string) (v : float) (row : Row) :
  (setitem c v row).*1 = row.*1 ++ (if decide (c ∈ row.*1) then [] else [c]).
Proof.
  induction row as [|[k w] row IH]; [done|].
  cbn [setitem]. rewrite !fmap_cons. cbn [fst].
  - destruct (decide (k = c)) as [->|Hk]; rewrite ?fmap_cons; cbn [fst].
    + rewrite decide_True by left. by rewrite app_nil_r.
    + rewrite IH. destruct (decide (c ∈ row.*1)) as [Hin|Hin].
      * rewrite decide_True; [done|by right].
      * rewrite decide_False; [done|].
        intros [?|?]%elem_of_cons; congruence.
Qed.

Lemma setitem_not_nil (c : string) (v : float) (row : Row) : setitem c v row ≠ [].
Proof. destruct row as [|[k w] row]; simpl; [done|]. by destruct (decide (k = c)). Qed.

Lemma elem_of_setitem_columns (c k : string) (v : float) (row : Row) :
  k ∈ (setitem c v row).*1 ↔ k = c ∨ k ∈ row.*1.
Proof.
  rewrite setitem_columns, elem_of_app.
  destruct (decide (c ∈ row.*1)) as [Hin|Hin].
  - rewrite elem_of_nil. split; [tauto|]. intros [->|?]; tauto.
  - rewrite list_elem_of_singleton. tauto.
Qed.

Lemma unique_from_snoc {A} `{EqDecision A} (seen l : list A) (x : A) :
  unique_from seen (l ++ [x])
  = unique_from seen l ++ (if decide (x ∈ seen ∨ x ∈ l) then [] else [x]).
Proof.
  revert seen. induction l as [|y l IH]; intros seen; simpl.
  - destruct (decide (x ∈ seen)) as [Hin|Hin].
    + rewrite decide_True; [done|by left].
    + rewrite decide_False; [done|]. intros [?|?%elem_of_nil]; tauto.
  - destruct (decide (y ∈ seen)) as [Hy|Hy]; rewrite IH.
    + destruct (decide (x ∈ seen ∨ x ∈ l)) as [Hx|Hx].
      * rewrite decide_True; [done|]. rewrite elem_of_cons. tauto.
      * rewrite decide_False; [done|]. rewrite elem_of_cons.
        intros [?|[->|?]]; tauto.
    + simpl. f_equal. f_equal.
      destruct (decide (x ∈ y :: seen ∨ x ∈ l)) as [Hx|Hx].
      * rewrite decide_True; [done|]. rewrite !elem_of_cons in *. tauto.
      * rewrite decide_False; [done|]. rewrite !elem_of_cons in *. tauto.
Qed.

Section RowOfSelections.
Context {K : Type} (col : K → string) (val : K → float).

(** The row the assignments [year_df[col k] = [val k]] build, in order. *)
Local Abbreviation assign := (λ (row : Row) (k : K), setitem (col k) (val k) row).

Lemma assign_columns (ks : list K) :
  (foldl assign [] ks).*1 = unique (col <$> ks).
Proof.
  induction ks as [|k ks IH] using rev_ind; [done|].
  rewrite foldl_snoc, fmap_app.
  rewrite setitem_columns, IH. unfold unique. simpl.
  rewrite unique_from_snoc. f_equal.
  destruct (decide (col k ∈ unique_from [] (col <$> ks))) as [Hin|Hin];
    fold (unique (col <$> ks)) in Hin; rewrite elem_of_unique in Hin.
  - rewrite decide_True; [done|by right].
  - rewrite decide_False; [done|]. intros [?%elem_of_nil|?]; tauto.
Qed.

Lemma assign_cell (ks : list K) (row : Row) (c : string) (v : float) :
  (∀ k, k ∈ ks → col k = c → val k = v) →
  row_cell c row = Some v ∨ (∃ k, k ∈ ks ∧ col k = c) →
  row_cell c (foldl assign row ks) = Some v.
Proof.
  revert row. induction ks as [|k ks IH]; intros row Hval Hsrc; simpl.
  - destruct Hsrc as [?|(k & []%elem_of_nil & _)]. done.
  - apply IH; [intros k' ??; apply Hval; [by right|done]|].
    rewrite row_cell_setitem.
    destruct (decide (col k = c)) as [Hc|Hc].
    + left. f_equal. apply Hval; [left|done].
    + destruct Hsrc as [?|(k' & [->|?]%elem_of_cons & ?)]; [by left|done|].
      right. eauto.
Qed.

Lemma assign_not_nil (ks : list K) : ks ≠ [] → foldl assign [] ks ≠ [].
Proof.
  destruct ks as [|k ks _] using rev_ind; [done|]. intros _.
  rewrite foldl_snoc. apply setitem_not_nil.
Qed.
End RowOfSelections.

(** ** Frames *)

Lemma append_data (full_df : Frame) (row : Row) :
  data (append full_df row)
  = data full_df ++ filter (λ r : Row, r ≠ []) [row].
Proof. destruct row as [|kv row]; simpl; [by rewrite app_nil_r|done]. Qed.

Lemma data_foldl_append (full_df : Frame) (rows : list Row) :
  data (foldl append full_df rows)
  = data full_df ++ filter (λ r : Row, r ≠ []) rows.
Proof.
  revert full_df. induction rows as [|row rows IH]; intros full_df.
  - by rewrite app_nil_r.
  - cbn [foldl]. rewrite IH, append_data, <- app_assoc. f_equal.
    by rewrite <- filter_app.
Qed.

Lemma filter_all {A} (P : A → Prop) `{!∀ x, Decision (P x)} (l : list A) :
  Forall P l → filter P l = l.
Proof.
  induction 1 as [|x l Hx _ IH]; [done|]. by rewrite filter_cons_True, IH.
Qed.

Lemma filter_none {A} (P : A → Prop) `{!∀ x, Decision (P x)} (l : list A) :
  Forall (λ x, ¬ P x) l → filter P l = [].
Proof.
  induction 1 as [|x l Hx _ IH]; [done|]. by rewrite filter_cons_False.
Qed.

Lemma filter_full_length {A} (P : A → Prop) `{!∀ x, Decision (P x)} (l : list A) :
  length (filter P l) = length l → Forall P l.
Proof.
  intros Hlen. apply Forall_forall. intros x Hx.
  destruct (decide (P x)) as [|HP]; [done|].
  pose proof (length_filter_lt P l x Hx HP). lia.
Qed.

Lemma columns_append_same (full_df : Frame) (row : Row) :
  row.*1 = columns full_df → columns (append full_df row) = columns full_df.
Proof.
  intros Hrow. destruct row as [|kv row]; [done|].
  cbn [append columns]. rewrite Hrow.
  rewrite filter_none; [by rewrite app_nil_r|].
  apply Forall_forall. tauto.
Qed.

Lemma columns_foldl_append_same (full_df : Frame) (rows : list Row) :
  Forall (λ row : Row, row.*1 = columns full_df) rows →
  columns (foldl append full_df rows) = columns full_df.
Proof.
  revert full_df. induction rows as [|row rows IH]; intros full_df Hrows; [done|].
  apply Forall_cons in Hrows as [Hrow Hrows]. cbn [foldl].
  rewrite IH; rewrite columns_append_same; done.
Qed.

Lemma columns_append_empty (row : Row) :
  columns (append empty_frame row) = row.*1.
Proof.
  destruct row as [|kv row]; [done|]. cbn [append columns empty_frame app].
  apply filter_all, Forall_forall. intros c _. apply not_elem_of_nil.
Qed.

(** Rows with the same columns make a frame with those columns, also when
    that is no column at all. *)
Lemma columns_foldl_append_same_rows (cols : list string) (rows : list Row) :
  rows ≠ [] → Forall (λ row : Row, row.*1 = cols) rows →
  columns (foldl append empty_frame rows) = cols.
Proof.
  destruct rows as [|row rows]; [done|]. intros _ [Hrow Hrows]%Forall_cons.
  cbn [foldl]. rewrite columns_foldl_append_same; rewrite columns_append_empty;
    [done|]. by rewrite Hrow.
Qed.

Lemma elem_of_columns_append (full_df : Frame) (row : Row) (c : string) :
  c ∈ columns (append full_df row) ↔ c ∈ columns full_df ∨ c ∈ row.*1.
Proof.
  destruct row as [|kv row]; simpl.
  - rewrite elem_of_nil. tauto.
  - rewrite elem_of_app, list_elem_of_filter.
    destruct (decide (c ∈ columns full_df)); tauto.
Qed.

Lemma elem_of_columns_foldl_append (full_df : Frame) (rows : list Row)
    (c : string) :
  c ∈ columns (foldl append full_df rows)
  ↔ c ∈ columns full_df ∨ ∃ row, row ∈ rows ∧ c ∈ row.*1.
Proof.
  revert full_df. induction rows as [|row rows IH]; intros full_df; simpl.
  - split; [by left|]. intros [?|(row & []%elem_of_nil & _)]. done.
  - rewrite IH, elem_of_columns_append. split.
    + intros [[?|?]|(row' & ? & ?)]; [by left|right..].
      * exists row. split; [left|done].
      * exists row'. split; [by right|done].
    + intros [?|(row' & [->|?]%elem_of_cons & ?)]; [tauto|tauto|].
      right. by exists row'.
Qed.

Lemma foldl_append_no_row (full_df : Frame) (rows : list Row) :
  Forall (λ r : Row, r = []) rows → foldl append full_df rows = full_df.
Proof. induction 1 as [|row rows -> _ IH]; [done|]. simpl. apply IH. Qed.

Lemma columns_foldl_append_nil (rows : list Row) :
  columns (foldl append empty_frame rows) = [] → Forall (λ r : Row, r = []) rows.
Proof.
  intros Hnil. apply Forall_forall. intros [|[c v] row] Hrow; [done|].
  assert (c ∈ columns (foldl append empty_frame rows)) as Hc.
  { apply elem_of_columns_foldl_append. right. eexists. split; [done|]. left. }
  rewrite Hnil in Hc. by apply elem_of_nil in Hc.
Qed.

Lemma no_row_replicate (rows : list Row) :
  Forall (λ r : Row, r = []) rows → rows = replicate (length rows) [].
Proof. induction 1 as [|row rows -> _ IH]; [done|]. simpl. by rewrite <- IH. Qed.

(** Labelling the frame of the rows of the years: the rows appended are
    the rows yielded when all have columns, or when none has. *)
Lemma set_index_rows (rows : list Row) (labels : list Z) :
  length labels = length rows →
  Forall (λ r : Row, r ≠ []) rows ∨ Forall (λ r : Row, r = []) rows →
  set_index (foldl append empty_frame rows) labels
  = Ok {| columns := columns (foldl append empty_frame rows);
          index := labels; data := rows |}.
Proof.
  intros Hlen Hrows. unfold set_index.
  destruct (decide (columns (foldl append empty_frame rows) = [])) as [Hnil|Hcols].
  - rewrite Hnil, Hlen.
    by rewrite <- (no_row_replicate rows) by (by apply columns_foldl_append_nil).
  - destruct Hrows as [Hne|Hno].
    + rewrite data_foldl_append, filter_all by done. simpl.
      by rewrite decide_True.
    + by rewrite foldl_append_no_row in Hcols.
Qed.

Lemma set_index_Ok_rows (rows : list Row) (labels : list Z) (full_df : Frame) :
  length labels = length rows →
  set_index (foldl append empty_frame rows) labels = Ok full_df →
  full_df = {| columns := columns (foldl append empty_frame rows);
               index := labels; data := rows |}.
Proof.
  intros Hlen. unfold set_index.
  destruct (decide (columns (foldl append empty_frame rows) = [])) as [Hnil|Hcols].
  - intros [= <-]. rewrite Hnil, Hlen.
    by rewrite <- (no_row_replicate rows) by (by apply columns_foldl_append_nil).
  - destruct (decide _) as [Hdata|]; [|done]. intros [= <-]. f_equal.
    rewrite data_foldl_append in Hdata |- *. simpl in Hdata |- *.
    rewrite Hlen in Hdata. apply filter_full_length in Hdata.
    by rewrite filter_all.
Qed.

Lemma Forall2_rows_nonempty {A B} (R : A → B → Prop) (l : list A) (k : list B) :
  Forall2 R l k → l ≠ [] → k ≠ [].
Proof. by destruct 1. Qed.

(** ** The loop over the years *)

Section HistoricalLoop.
Context (get_expenses : string → Z → result DataFrame).
Context (year_row : DataFrame → result Row) (city : string).

Local Abbreviation body := (year_step get_expenses year_row city).
Local Abbreviation yields := (year_yields get_expenses year_row city).

Lemma years_loop_rows (years : list Z) (rows : list Row) (full_df : Frame) :
  Forall2 yields years rows →
  for_each years body full_df = Ok (foldl append full_df rows).
Proof.
  intros Hrows. revert full_df.
  induction Hrows as [|y row years rows (df & Hdf & Hrow) _ IH];
    intros full_df; [done|].
  cbn [for_each foldl].
  assert (body y full_df = Ok (append full_df row)) as ->.
  { unfold year_step. rewrite Hdf. simpl. by rewrite Hrow. }
  apply IH.
Qed.

Lemma years_loop_inv (years : list Z) (full_df full_df' : Frame) :
  for_each years body full_df = Ok full_df' →
  ∃ rows, Forall2 yields years rows ∧ full_df' = foldl append full_df rows.
Proof.
  revert full_df. induction years as [|y years IH]; intros full_df; simpl.
  - intros [= <-]. exists []. by split; [constructor|].
  - intros (full1 & Hy & Hrest)%bind_Ok.
    apply bind_Ok in Hy as (df & Hdf & Hy).
    apply bind_Ok in Hy as (row & Hrow & [= <-]).
    destruct (IH _ Hrest) as (rows & Hrows & ->).
    exists (row :: rows). split; [|done].
    constructor; [by exists df|done].
Qed.

(** When every year yields a row with at least one column, the call
    returns the frame of those rows, labelled by the years. *)
Lemma historical_loop_rows (years : list Z) (rows : list Row) :
  Forall2 yields years rows → Forall (λ r : Row, r ≠ []) rows →
  historical_loop get_expenses year_row city years
  = Ok {| columns := columns (foldl append empty_frame rows);
          index := years; data := rows |}.
Proof.
  intros Hrows Hne. unfold historical_loop.
  rewrite (years_loop_rows years rows) by done. simpl.
  apply set_index_rows; [by eapply Forall2_length|by left].
Qed.

(** The same when no year yields a column: the frame has a row for each
    year and no column. *)
Lemma historical_loop_no_column (years : list Z) (rows : list Row) :
  Forall2 yields years rows → Forall (λ r : Row, r = []) rows →
  historical_loop get_expenses year_row city years
  = Ok {| columns := []; index := years; data := rows |}.
Proof.
  intros Hrows Hno. unfold historical_loop.
  rewrite (years_loop_rows years rows) by done. simpl.
  rewrite set_index_rows; [|by eapply Forall2_length|by right].
  by rewrite foldl_append_no_row.
Qed.

(** A frame the call returns is made of one row per year, each yielded
    by its year. *)
Lemma historical_loop_inv (years : list Z) (full_df : Frame) :
  historical_loop get_expenses year_row city years = Ok full_df →
  Forall2 yields years (data full_df)
  ∧ columns full_df = columns (foldl append empty_frame (data full_df))
  ∧ index full_df = years.
Proof.
  unfold historical_loop.
  intros (full1 & Hloop & Hset)%bind_Ok.
  apply years_loop_inv in Hloop as (rows & Hrows & ->).
  apply set_index_Ok_rows in Hset as ->; [done|by eapply Forall2_length].
Qed.

(** The same, telling the failing year from the ones before it: the call
    raises at the first year whose iteration fails, the years before it
    having yielded their rows. *)
Lemma historical_loop_first_failure (years : list Z) (y : Z) (df : DataFrame) :
  y ∈ years → get_expenses city y = Ok df →
  (∃ e, year_row (only_paid df) = Raise e) →
  ∃ e before y' after,
    years = before ++ y' :: after
    ∧ historical_loop get_expenses year_row city years = Raise e
    ∧ (∀ y0, y0 ∈ before → ∃ row, yields y0 row)
    ∧ (get_expenses city y' = Raise e
       ∨ ∃ df', get_expenses city y' = Ok df'
                ∧ year_row (only_paid df') = Raise e).
Proof.
  intros Hy Hdf [e0 He0].
  destruct (for_each_raises years body empty_frame y Hy)
    as (e & _ & _ & _ & _ & Hloop).
  { intros t. exists e0. unfold year_step. rewrite Hdf. simpl. by rewrite He0. }
  assert (historical_loop get_expenses year_row city years = Raise e) as Hcall
    by (unfold historical_loop; by rewrite Hloop).
  apply (for_each_first_failure (λ y0, ∃ row, yields y0 row)) in Hloop
    as (before & y' & after & t & Hyears & Hbefore & Hbody).
  2: { intros y0 t t' (df0 & Hdf0 & Hrow)%bind_Ok.
    apply bind_Ok in Hrow as (row & Hrow & _). exists row, df0. done. }
  exists e, before, y', after. split_and!; [done|..].
  - done.
  - by apply Forall_forall.
  - unfold year_step in Hbody.
    apply bind_Raise in Hbody as [?|(df' & Hdf' & Hbody)]; [by left|right].
    exists df'. split; [done|].
    by apply bind_Raise in Hbody as [?|(row & ? & ?)].
Qed.
End HistoricalLoop.

Lemma for_each_app {A S} (xs ys : list A) (body : A → S → result S) (s : S) :
  for_each (xs ++ ys) body s = (s' ← for_each xs body s; for_each ys body s').
Proof.
  revert s. induction xs as [|x xs IH]; intros s; [done|].
  simpl. destruct (body x s) as [t|e]; simpl; [apply IH|done].
Qed.

Section HistoricalFrames.
Context (get_expenses : string → Z → result DataFrame).
Context (year_row : DataFrame → result Row) (city : string).

(** The rows the years yield, when each year yields one. *)
Lemma years_yield_rows (years : list Z) (P : DataFrame → Prop)
    (row_of : DataFrame → Row) :
  (∀ df, P df → year_row (only_paid df) = Ok (row_of df)) →
  (∀ y, y ∈ years → ∃ df, get_expenses city y = Ok df ∧ P df) →
  ∃ rows,
    Forall2 (λ y row, ∃ df, get_expenses city y = Ok df ∧ P df
                            ∧ row = row_of df) years rows
    ∧ Forall2 (year_yields get_expenses year_row city) years rows.
Proof.
  intros Hrow Hall. induction years as [|y years IH].
  - exists []. split; constructor.
  - destruct IH as (rows & Hrows & Hyields); [intros ??; apply Hall; by right|].
    destruct (Hall y) as (df & Hdf & HP); [left|].
    exists (row_of df :: rows). split; constructor; try done.
    + by exists df.
    + exists df. split; [done|]. by apply Hrow.
Qed.

(** With rows that all have a column, or all have none, the call returns
    their frame. *)
Lemma historical_loop_frame (years : list Z) (P : DataFrame → Prop)
    (row_of : DataFrame → Row) :
  (∀ df, P df → year_row (only_paid df) = Ok (row_of df)) →
  (∀ df, P df → row_of df ≠ []) ∨ (∀ df, P df → row_of df = []) →
  (∀ y, y ∈ years → ∃ df, get_expenses city y = Ok df ∧ P df) →
  ∃ rows,
    Forall2 (λ y row, ∃ df, get_expenses city y = Ok df ∧ P df
                            ∧ row = row_of df) years rows
    ∧ historical_loop get_expenses year_row city years
      = Ok {| columns := columns (foldl append empty_frame rows);
              index := years; data := rows |}.
Proof.
  intros Hrow Hne Hall.
  destruct (years_yield_rows years P row_of Hrow Hall) as (rows & Hrows & Hyields).
  exists rows. split; [done|].
  assert (∀ row, row ∈ rows → ∃ df, P df ∧ row = row_of df) as Hrow_of.
  { intros row (i & Hi)%list_elem_of_lookup_1.
    destruct (Forall2_lookup_r _ _ _ _ _ Hrows Hi) as (y & Hy & df & _ & HP & ->).
    eauto. }
  destruct Hne as [Hne|Hno].
  - apply historical_loop_rows; [done|].
    apply Forall_forall. intros row (df & HP & ->)%Hrow_of. by apply Hne.
  - assert (Forall (λ r : Row, r = []) rows) as Hnone.
    { apply Forall_forall. intros row (df & HP & ->)%Hrow_of. by apply Hno. }
    rewrite (foldl_append_no_row _ _ Hnone). simpl.
    by apply historical_loop_no_column.
Qed.

(** With rows that all lack columns, the call returns a frame with a row
    for each year and no column. *)
Lemma historical_loop_no_row (years : list Z) :
  (∀ y, y ∈ years → ∃ df, get_expenses city y = Ok df
                          ∧ year_row (only_paid df) = Ok []) →
  historical_loop get_expenses year_row city years
  = Ok {| columns := []; index := years;
          data := replicate (length years) [] |}.
Proof.
  intros Hall.
  destruct (years_yield_rows years (λ df, year_row (only_paid df) = Ok [])
              (λ _, []) (λ _ H, H) Hall) as (rows & Hrows & Hyields).
  assert (Forall (λ r : Row, r = []) rows) as Hnone.
  { apply Forall_forall. intros row (i & Hi)%list_elem_of_lookup_1.
    by destruct (Forall2_lookup_r _ _ _ _ _ Hrows Hi) as (y & _ & df & _ & _ & ->). }
  rewrite (historical_loop_no_column _ _ _ years rows) by done.
  by rewrite (Forall2_length _ _ _ Hrows), <- no_row_replicate.
Qed.

(** The exception of the record source ends the call, once the years
    before it have yielded their rows. *)
Lemma historical_loop_fetch_raises (before after : list Z) (y : Z) (e : exn) :
  (∀ y', y' ∈ before → ∃ row, year_yields get_expenses year_row city y' row) →
  get_expenses city y = Raise e →
  historical_loop get_expenses year_row city (before ++ y :: after) = Raise e.
Proof.
  intros Hbefore Hy.
  assert (∃ rows, Forall2 (year_yields get_expenses year_row city) before rows)
    as [rows Hrows].
  { induction before as [|y' before IH]; [by exists []|].
    destruct IH as [rows Hrows]; [intros ??; apply Hbefore; by right|].
    destruct (Hbefore y') as [row Hrow]; [left|].
    exists (row :: rows). by constructor. }
  unfold historical_loop. rewrite for_each_app.
  rewrite (years_loop_rows _ _ _ before rows) by done. simpl.
  assert (∀ full_df, year_step get_expenses year_row city y full_df = Raise e)
    as -> by (intros full_df; unfold year_step; by rewrite Hy).
  done.
Qed.

(** The call depends on the rows of the years that are fetched only. *)
Lemma historical_loop_ext (year_row' : DataFrame → result Row) (years : list Z) :
  (∀ y df, y ∈ years → get_expenses city y = Ok df →
           year_row (only_paid df) = year_row' (only_paid df)) →
  historical_loop get_expenses year_row city years
  = historical_loop get_expenses year_row' city years.
Proof.
  intros Hext. unfold historical_loop. f_equal.
  generalize empty_frame.
  induction years as [|y years IH]; intros full_df; [done|].
  simpl. assert (year_step get_expenses year_row city y full_df
                 = year_step get_expenses year_row' city y full_df) as ->.
  { unfold year_step. destruct (get_expenses city y) as [df|e] eqn:Hdf; [|done].
    simpl. by rewrite (Hext y df) by (done || left). }
  destruct (year_step _ _ _ _ _) as [t|e]; simpl; [|done].
  apply IH. intros ????. eapply Hext; [by right|done].
Qed.
End HistoricalFrames.

(** ** The row of a year *)

Lemma theme_column_inj : Inj (=) (=) theme_column.
Proof. unfold theme_column. apply _. Qed.

Section YearRows.
Context (paid_df : DataFrame).

(** *** One column per theme *)

Lemma themed_body (theme : string) (year_df : Row) :
  (theme_df ← loc theme (group_by_theme paid_df);
   Ok (setitem (theme_column theme) (theme_total theme_df) year_df))
  = if decide (theme ∈ ds_funcao_governo <$> paid_df)
    then Ok (setitem (theme_column theme)
               (series_sum (vl_despesa <$>
                  filter (λ r, ds_funcao_governo r = theme) paid_df)) year_df)
    else Raise (KeyError theme).
Proof. rewrite loc_group_by_theme. by destruct (decide _). Qed.

Lemma themed_year_df_Ok (themes : list string) :
  (∀ theme, theme ∈ themes → theme ∈ ds_funcao_governo <$> paid_df) →
  themed_year_df paid_df themes
  = Ok (foldl (λ row theme,
                 setitem (theme_column theme)
                   (series_sum (vl_despesa <$>
                      filter (λ r, ds_funcao_governo r = theme) paid_df)) row)
          [] themes).
Proof.
  intros Hall. unfold themed_year_df. apply for_each_total.
  intros theme row Hin. rewrite themed_body. by rewrite decide_True by auto.
Qed.

Lemma themed_year_df_missing (themes : list string) (theme : string) :
  theme ∈ themes → theme ∉ ds_funcao_governo <$> paid_df →
  ∃ e, themed_year_df paid_df themes = Raise e.
Proof.
  intros Hin Hno.
  destruct (for_each_raises themes (λ theme year_df,
    theme_df ← loc theme (group_by_theme paid_df);
    Ok (setitem (theme_column theme) (theme_total theme_df) year_df)) [] theme Hin)
    as (e & _ & _ & _ & _ & Hloop); [|by exists e].
  intros t. exists (KeyError theme). rewrite themed_body. by rewrite decide_False.
Qed.

Lemma themed_year_df_Ok_inv (themes : list string) (row : Row) :
  themed_year_df paid_df themes = Ok row →
  ∀ theme, theme ∈ themes → theme ∈ ds_funcao_governo <$> paid_df.
Proof.
  intros Hrow. apply Forall_forall. revert Hrow. apply for_each_Ok_all.
  intros theme t t'. rewrite themed_body. by destruct (decide _).
Qed.

(** The exception of the row is that of the first requested theme the
    table lacks. *)
Lemma themed_year_df_Raise (themes : list string) (e : exn) :
  themed_year_df paid_df themes = Raise e →
  ∃ before theme after,
    themes = before ++ theme :: after
    ∧ (∀ theme', theme' ∈ before → theme' ∈ ds_funcao_governo <$> paid_df)
    ∧ (theme ∉ ds_funcao_governo <$> paid_df)
    ∧ e = KeyError theme.
Proof.
  intros Hrow.
  apply (for_each_first_failure
           (λ theme, theme ∈ ds_funcao_governo <$> paid_df)) in Hrow
    as (before & theme & after & t & -> & Hbefore & Hbody).
  2: { intros theme t t'. rewrite themed_body. by destruct (decide _). }
  rewrite themed_body in Hbody. exists before, theme, after.
  destruct (decide _); [done|]. injection Hbody as <-.
  split_and!; [done| |done..]. by apply Forall_forall.
Qed.

(** *** One column per (theme, subtheme) pair *)

Lemma elem_of_theme_key (theme subtheme : string) :
  (theme, subtheme) ∈ theme_key <$> paid_df
  ↔ subtheme ∈ get_all_subthemes_of paid_df theme.
Proof.
  rewrite elem_of_get_all_subthemes_of, list_elem_of_fmap. unfold theme_key.
  split.
  - intros (r & [= -> ->] & Hr). eauto.
  - intros (r & Hr & <- & <-). eauto.
Qed.

Lemma theme_of_subtheme (theme subtheme : string) :
  subtheme ∈ get_all_subthemes_of paid_df theme →
  theme ∈ ds_funcao_governo <$> paid_df.
Proof.
  intros (r & Hr & <- & _)%elem_of_get_all_subthemes_of.
  by apply list_elem_of_fmap_2.
Qed.

Lemma subthemed_body (ts : string * string) (year_df : Row) :
  (by_subtheme ← group_by_subtheme paid_df ts.1;
   theme_df ← loc ts.2 by_subtheme;
   Ok (setitem (subtheme_column ts.1 ts.2) theme_df year_df))
  = if decide (ts.1 ∈ ds_funcao_governo <$> paid_df)
    then if decide (ts ∈ theme_key <$> paid_df)
         then Ok (setitem (subtheme_column ts.1 ts.2)
                    (pair_total paid_df ts.1 ts.2) year_df)
         else Raise (KeyError ts.2)
    else Raise (KeyError ts.1).
Proof.
  destruct ts as [theme subtheme]. simpl.
  rewrite group_by_subtheme_unfold.
  destruct (decide (theme ∈ _)) as [Hin|Hin]; simpl; [|done].
  rewrite loc_subtheme_totals.
  destruct (decide (subtheme ∈ _)) as [Hs|Hs];
    rewrite <- elem_of_theme_key in Hs.
  - by rewrite decide_True.
  - by rewrite decide_False.
Qed.

Lemma subthemed_year_df_missing (subthemes : list (string * string))
    (ts : string * string) :
  ts ∈ subthemes → ts ∉ theme_key <$> paid_df →
  ∃ e, subthemed_year_df paid_df subthemes = Raise e.
Proof.
  intros Hin Hno.
  destruct (for_each_raises subthemes (λ ts year_df,
    by_subtheme ← group_by_subtheme paid_df ts.1;
    theme_df ← loc ts.2 by_subtheme;
    Ok (setitem (subtheme_column ts.1 ts.2) theme_df year_df)) [] ts Hin)
    as (e & _ & _ & _ & _ & Hloop); [|by exists e].
  intros t. rewrite subthemed_body.
  destruct (decide (ts.1 ∈ _)); [|by eexists].
  rewrite decide_False by done. by eexists.
Qed.

Lemma subthemed_year_df_Ok_inv (subthemes : list (string * string)) (row : Row) :
  subthemed_year_df paid_df subthemes = Ok row →
  ∀ ts, ts ∈ subthemes → ts ∈ theme_key <$> paid_df.
Proof.
  intros Hrow. apply Forall_forall. revert Hrow. apply for_each_Ok_all.
  intros ts t t'. rewrite subthemed_body. by repeat destruct (decide _).
Qed.

(** The exception of the row is that of the first requested pair the
    table lacks: it names the theme when no record has the theme, and the
    subtheme otherwise. *)
Lemma subthemed_year_df_Raise (subthemes : list (string * string)) (e : exn) :
  subthemed_year_df paid_df subthemes = Raise e →
  ∃ before ts after,
    subthemes = before ++ ts :: after
    ∧ (∀ ts', ts' ∈ before → ts' ∈ theme_key <$> paid_df)
    ∧ (ts ∉ theme_key <$> paid_df)
    ∧ ((ts.1 ∉ ds_funcao_governo <$> paid_df) ∧ e = KeyError ts.1
       ∨ (ts.1 ∈ ds_funcao_governo <$> paid_df) ∧ e = KeyError ts.2).
Proof.
  intros Hrow.
  apply (for_each_first_failure (λ ts, ts ∈ theme_key <$> paid_df)) in Hrow
    as (before & ts & after & t & -> & Hbefore & Hbody).
  2: { intros ts t t'. rewrite subthemed_body. by repeat destruct (decide _). }
  rewrite subthemed_body in Hbody. exists before, ts, after.
  split_and!; [done|by apply Forall_forall|..];
    destruct (decide (ts.1 ∈ _)) as [Ht|Ht].
  - by destruct (decide (ts ∈ _)).
  - destruct ts as [theme subtheme].
    by intros ?%elem_of_theme_key%theme_of_subtheme.
  - destruct (decide (ts ∈ _)); [done|]. injection Hbody as <-. by right.
  - injection Hbody as <-. by left.
Qed.

(** *** One column per discovered subtheme *)

Lemma discovered_body (theme : string) (subthemes_df : list (string * float))
    (subtheme : string) (year_df : Row) :
  subthemes_df = (λ s, (s, pair_total paid_df theme s))
                   <$> merge_sort String.le (get_all_subthemes_of paid_df theme) →
  subtheme ∈ get_all_subthemes_of paid_df theme →
  (subtheme_df ← loc subtheme subthemes_df;
   Ok (setitem (subtheme_column theme subtheme) subtheme_df year_df))
  = Ok (setitem (subtheme_column theme subtheme)
          (pair_total paid_df theme subtheme) year_df).
Proof. intros -> Hs. by rewrite loc_subtheme_totals, decide_True. Qed.

Lemma all_subthemes_body (theme : string) (year_df : Row) :
  (subthemes_df ← group_by_subtheme paid_df theme;
   for_each (get_all_subthemes_of paid_df theme) (λ subtheme year_df,
     subtheme_df ← loc subtheme subthemes_df;
     Ok (setitem (subtheme_column theme subtheme) subtheme_df year_df))
     year_df)
  = if decide (theme ∈ ds_funcao_governo <$> paid_df)
    then Ok (foldl (λ row subtheme,
                      setitem (subtheme_column theme subtheme)
                        (pair_total paid_df theme subtheme) row)
               year_df (get_all_subthemes_of paid_df theme))
    else Raise (KeyError theme).
Proof.
  rewrite group_by_subtheme_unfold.
  destruct (decide (theme ∈ _)) as [Hin|Hin]; simpl; [|done].
  apply for_each_total. intros subtheme row Hs. by apply discovered_body.
Qed.

Lemma all_subthemes_year_df_missing (themes : list string) (theme : string) :
  theme ∈ themes → theme ∉ ds_funcao_governo <$> paid_df →
  ∃ e, all_subthemes_year_df paid_df themes = Raise e.
Proof.
  intros Hin Hno.
  destruct (for_each_raises themes (λ theme year_df,
    let subthemes := get_all_subthemes_of paid_df theme in
    subthemes_df ← group_by_subtheme paid_df theme;
    for_each subthemes (λ subtheme year_df,
      subtheme_df ← loc subtheme subthemes_df;
      Ok (setitem (subtheme_column theme subtheme) subtheme_df year_df))
      year_df) [] theme Hin)
    as (e & _ & _ & _ & _ & Hloop); [|by exists e].
  intros t. exists (KeyError theme). cbv zeta.
  rewrite all_subthemes_body. by rewrite decide_False.
Qed.

Lemma all_subthemes_year_df_Ok_inv (themes : list string) (row : Row) :
  all_subthemes_year_df paid_df themes = Ok row →
  ∀ theme, theme ∈ themes → theme ∈ ds_funcao_governo <$> paid_df.
Proof.
  intros Hrow. apply Forall_forall. revert Hrow. apply for_each_Ok_all.
  intros theme t t'. cbv zeta. rewrite all_subthemes_body.
  by destruct (decide _).
Qed.

(** The exception of the row is that of the first requested theme the
    table lacks: the lookups of the discovered subthemes do not fail. *)
Lemma all_subthemes_year_df_Raise (themes : list string) (e : exn) :
  all_subthemes_year_df paid_df themes = Raise e →
  ∃ before theme after,
    themes = before ++ theme :: after
    ∧ (∀ theme', theme' ∈ before → theme' ∈ ds_funcao_governo <$> paid_df)
    ∧ (theme ∉ ds_funcao_governo <$> paid_df)
    ∧ e = KeyError theme.
Proof.
  intros Hrow.
  apply (for_each_first_failure
           (λ theme, theme ∈ ds_funcao_governo <$> paid_df)) in Hrow
    as (before & theme & after & t & -> & Hbefore & Hbody).
  2: { intros theme t t'. cbv zeta. rewrite all_subthemes_body.
    by destruct (decide _). }
  cbv zeta in Hbody. rewrite all_subthemes_body in Hbody.
  exists before, theme, after.
  destruct (decide _); [done|]. injection Hbody as <-.
  split_and!; [done| |done..]. by apply Forall_forall.
Qed.

(** Every column of the row comes from a requested theme and one of the
    subthemes discovered for it in [paid_df]. *)
Lemma all_subthemes_year_df_columns (themes : list string) (row : Row)
    (c : string) :
  all_subthemes_year_df paid_df themes = Ok row → c ∈ row.*1 →
  ∃ theme subtheme,
    theme ∈ themes ∧ subtheme ∈ get_all_subthemes_of paid_df theme
    ∧ c = subtheme_column theme subtheme.
Proof.
  intros Hrow. revert c. unfold all_subthemes_year_df in Hrow.
  refine (for_each_invariant (λ row : Row, ∀ c, c ∈ row.*1 →
    ∃ theme subtheme, theme ∈ themes
      ∧ subtheme ∈ get_all_subthemes_of paid_df theme
      ∧ c = subtheme_column theme subtheme) _ _ _ _ _ _ Hrow).
  - intros theme t t' Hin Ht. cbv zeta. rewrite all_subthemes_body.
    destruct (decide _); [|done]. intros [= <-].
    assert (∀ l : list string,
      (∀ s, s ∈ l → s ∈ get_all_subthemes_of paid_df theme) →
      ∀ c, c ∈ (foldl (λ row subtheme,
                   setitem (subtheme_column theme subtheme)
                     (pair_total paid_df theme subtheme) row) t l).*1 →
      ∃ theme0 subtheme, theme0 ∈ themes
        ∧ subtheme ∈ get_all_subthemes_of paid_df theme0
        ∧ c = subtheme_column theme0 subtheme) as Hfold.
    { intros l. induction l as [|s l IH] using rev_ind; intros Hl c; [apply Ht|].
      rewrite foldl_snoc. intros [->|Hc]%elem_of_setitem_columns.
      - exists theme, s. split_and!; [done| |done].
        apply Hl, elem_of_app. right. left.
      - apply IH; [|done]. intros s' Hs'. apply Hl, elem_of_app. by left. }
    apply Hfold. auto.
  - intros c []%elem_of_nil.
Qed.
End YearRows.

(** ** The three historical series *)

Lemma get_themed_historical_loop get_expenses city years themes :
  get_themed_historical get_expenses city years themes
  = historical_loop get_expenses (λ paid_df, themed_year_df paid_df themes)
      city years.
Proof. reflexivity. Qed.

Lemma get_subthemed_historical_loop get_expenses city years subthemes :
  get_subthemed_historical get_expenses city years subthemes
  = historical_loop get_expenses
      (λ paid_df, subthemed_year_df paid_df subthemes) city years.
Proof. reflexivity. Qed.

Lemma get_all_subthemes_historical_loop get_expenses city years themes :
  get_all_subthemes_historical get_expenses city years themes
  = historical_loop get_expenses
      (λ paid_df, all_subthemes_year_df paid_df themes) city years.
Proof. reflexivity. Qed.

(** C4, amended: when every year's data is fetched and has every
    requested theme among its paid records, [get_themed_historical]
    returns a frame whose index is the list of years as given, with one
    row per element of that list.  When the list of years is not empty,
    its columns are the requested themes' names prefixed by
    ["vl_despesa_"], each once, in the order of first request; with no
    year the frame has no column.  The cell of a year under a theme's
    column is the total of that year's paid records of the theme. *)
Theorem themed_historical_frame (get_expenses : string → Z → result DataFrame)
    (city : string) (years : list Z) (themes : list string) :
  (∀ y, y ∈ years →
     ∃ df, get_expenses city y = Ok df
           ∧ ∀ theme, theme ∈ themes →
               theme ∈ ds_funcao_governo <$> only_paid df) →
  ∃ full_df,
    get_themed_historical get_expenses city years themes = Ok full_df
    ∧ index full_df = years
    ∧ length (data full_df) = length years
    ∧ (years ≠ [] → columns full_df = unique (theme_column <$> themes))
    ∧ (years = [] → columns full_df = [])
    ∧ (∀ row, row ∈ data full_df → row.*1 = unique (theme_column <$> themes))
    ∧ (∀ i y df theme,
         years !! i = Some y → get_expenses city y = Ok df → theme ∈ themes →
         cell full_df i (theme_column theme) = Some (paid_theme_total df theme)).
Proof.
  intros Hall.
  set (row_of := λ df : DataFrame,
    foldl (λ row theme, setitem (theme_column theme) (paid_theme_total df theme) row)
      [] themes).
  destruct (historical_loop_frame get_expenses
              (λ paid_df, themed_year_df paid_df themes) city years
              (λ df, ∀ theme, theme ∈ themes →
                       theme ∈ ds_funcao_governo <$> only_paid df)
              row_of) as (rows & Hrows & Hcall); [| |done|].
  { intros df Hdf. by apply themed_year_df_Ok. }
  { destruct themes as [|theme themes]; [by right|left].
    intros df _. by apply assign_not_nil. }
  assert (∀ row, row ∈ rows → row.*1 = unique (theme_column <$> themes)) as Hcols.
  { intros row (i & Hi)%list_elem_of_lookup_1.
    destruct (Forall2_lookup_r _ _ _ _ _ Hrows Hi) as (y & _ & df & _ & _ & ->).
    apply assign_columns. }
  eexists. rewrite get_themed_historical_loop. split_and!; [exact Hcall|..].
  - done.
  - simpl. symmetry. by eapply Forall2_length.
  - intros Hyears. simpl. apply columns_foldl_append_same_rows.
    + by eapply Forall2_rows_nonempty.
    + by apply Forall_forall.
  - intros ->. apply Forall2_nil_inv_l in Hrows as ->. done.
  - done.
  - intros i y df theme Hi Hdf Hin. unfold cell. simpl.
    destruct (Forall2_lookup_l _ _ _ _ _ Hrows Hi) as (row & -> & df' & Hdf' & _ & ->).
    simpl. assert (df' = df) as -> by congruence.
    apply assign_cell; [|right; eauto].
    intros theme' _ Heq. by apply theme_column_inj in Heq as ->.
Qed.

(** C3, amended: in each of the three constructions, if some year of the
    list has fetched data whose paid records lack a requested selection,
    the call raises and returns no frame.  The exception is that of the
    first step that fails, in the order of the loops: the years before
    the failing one were fetched and had every requested selection among
    their paid records, and at the failing year either the record source
    raised, and its exception is passed on, or the selections requested
    before the failing one were present and the lookup of the failing
    one raised [KeyError].  That [KeyError] carries the missing label
    only: the theme, or for a pair the theme when the theme is missing and
    the subtheme otherwise. *)
Theorem missing_selection_raises (get_expenses : string → Z → result DataFrame)
    (city : string) (years : list Z) (y : Z) (df : DataFrame) :
  y ∈ years → get_expenses city y = Ok df →
  (∀ themes theme,
     theme ∈ themes → theme ∉ ds_funcao_governo <$> only_paid df →
     ∃ e before y' after,
       years = before ++ y' :: after
       ∧ get_themed_historical get_expenses city years themes = Raise e
       ∧ (∀ y0, y0 ∈ before →
            ∃ df0, get_expenses city y0 = Ok df0
                   ∧ ∀ theme0, theme0 ∈ themes →
                       theme0 ∈ ds_funcao_governo <$> only_paid df0)
       ∧ (get_expenses city y' = Raise e
          ∨ ∃ df' found theme' rest,
              get_expenses city y' = Ok df'
              ∧ themes = found ++ theme' :: rest
              ∧ (∀ theme0, theme0 ∈ found →
                   theme0 ∈ ds_funcao_governo <$> only_paid df')
              ∧ (theme' ∉ ds_funcao_governo <$> only_paid df')
              ∧ e = KeyError theme'))
  ∧ (∀ subthemes ts,
     ts ∈ subthemes → ts ∉ theme_key <$> only_paid df →
     ∃ e before y' after,
       years = before ++ y' :: after
       ∧ get_subthemed_historical get_expenses city years subthemes = Raise e
       ∧ (∀ y0, y0 ∈ before →
            ∃ df0, get_expenses city y0 = Ok df0
                   ∧ ∀ ts0, ts0 ∈ subthemes → ts0 ∈ theme_key <$> only_paid df0)
       ∧ (get_expenses city y' = Raise e
          ∨ ∃ df' found ts' rest,
              get_expenses city y' = Ok df'
              ∧ subthemes = found ++ ts' :: rest
              ∧ (∀ ts0, ts0 ∈ found → ts0 ∈ theme_key <$> only_paid df')
              ∧ (ts' ∉ theme_key <$> only_paid df')
              ∧ ((ts'.1 ∉ ds_funcao_governo <$> only_paid df')
                   ∧ e = KeyError ts'.1
                 ∨ (ts'.1 ∈ ds_funcao_governo <$> only_paid df')
                   ∧ e = KeyError ts'.2)))
  ∧ (∀ themes theme,
     theme ∈ themes → theme ∉ ds_funcao_governo <$> only_paid df →
     ∃ e before y' after,
       years = before ++ y' :: after
       ∧ get_all_subthemes_historical get_expenses city years themes = Raise e
       ∧ (∀ y0, y0 ∈ before →
            ∃ df0, get_expenses city y0 = Ok df0
                   ∧ ∀ theme0, theme0 ∈ themes →
                       theme0 ∈ ds_funcao_governo <$> only_paid df0)
       ∧ (get_expenses city y' = Raise e
          ∨ ∃ df' found theme' rest,
              get_expenses city y' = Ok df'
              ∧ themes = found ++ theme' :: rest
              ∧ (∀ theme0, theme0 ∈ found →
                   theme0 ∈ ds_funcao_governo <$> only_paid df')
              ∧ (theme' ∉ ds_funcao_governo <$> only_paid df')
              ∧ e = KeyError theme')).
Proof.
  intros Hy Hdf. split_and!.
  - intros themes theme Hin Hno. rewrite get_themed_historical_loop.
    destruct (historical_loop_first_failure get_expenses
                (λ paid_df, themed_year_df paid_df themes) city years y df Hy Hdf)
      as (e & before & y' & after & Hyears & Hcall & Hbefore & Hwhy);
      [by eapply themed_year_df_missing|].
    exists e, before, y', after. split_and!; [done..| |].
    + intros y0 (row & df0 & Hdf0 & Hrow)%Hbefore. exists df0.
      split; [done|]. by eapply themed_year_df_Ok_inv.
    + destruct Hwhy as [?|(df' & Hdf' & Hrow)]; [by left|right].
      apply themed_year_df_Raise in Hrow as (found & theme' & rest & ? & ? & ? & ?).
      by exists df', found, theme', rest.
  - intros subthemes ts Hin Hno. rewrite get_subthemed_historical_loop.
    destruct (historical_loop_first_failure get_expenses
                (λ paid_df, subthemed_year_df paid_df subthemes) city years y df Hy Hdf)
      as (e & before & y' & after & Hyears & Hcall & Hbefore & Hwhy);
      [by eapply subthemed_year_df_missing|].
    exists e, before, y', after. split_and!; [done..| |].
    + intros y0 (row & df0 & Hdf0 & Hrow)%Hbefore. exists df0.
      split; [done|]. by eapply subthemed_year_df_Ok_inv.
    + destruct Hwhy as [?|(df' & Hdf' & Hrow)]; [by left|right].
      apply subthemed_year_df_Raise in Hrow as (found & ts' & rest & ? & ? & ? & ?).
      by exists df', found, ts', rest.
  - intros themes theme Hin Hno. rewrite get_all_subthemes_historical_loop.
    destruct (historical_loop_first_failure get_expenses
                (λ paid_df, all_subthemes_year_df paid_df themes) city years y df Hy Hdf)
      as (e & before & y' & after & Hyears & Hcall & Hbefore & Hwhy);
      [by eapply all_subthemes_year_df_missing|].
    exists e, before, y', after. split_and!; [done..| |].
    + intros y0 (row & df0 & Hdf0 & Hrow)%Hbefore. exists df0.
      split; [done|]. by eapply all_subthemes_year_df_Ok_inv.
    + destruct Hwhy as [?|(df' & Hdf' & Hrow)]; [by left|right].
      apply all_subthemes_year_df_Raise in Hrow
        as (found & theme' & rest & ? & ? & ? & ?).
      by exists df', found, theme', rest.
Qed.

(** Column names are built by formatting, so two different pairs can share
    one; which pair produced a column is therefore told on the pairs, not
    on the names. *)
Example subtheme_column_shared :
  subtheme_column "A_B" "C" = subtheme_column "A" "B_C".
Proof. reflexivity. Qed.

(** C10: in [get_all_subthemes_historical] the subthemes of a year are
    discovered in the paid-filtered table.  A (theme, subtheme) pair that
    the data of a year has in non-paid records only is not among the
    subthemes discovered for that year, and every column of the year's row
    is the column of another pair: a requested theme and a subtheme borne
    by a paid record of that year. *)
Theorem all_subthemes_discovered_among_paid
    (get_expenses : string → Z → result DataFrame) (city : string)
    (years : list Z) (themes : list string) (full_df : Frame)
    (i : nat) (y : Z) (df : DataFrame) (theme subtheme : string) :
  get_all_subthemes_historical get_expenses city years themes = Ok full_df →
  years !! i = Some y → get_expenses city y = Ok df →
  (∀ r, r ∈ df → ds_funcao_governo r = theme →
        ds_subfuncao_governo r = subtheme → tp_despesa r ≠ paid_marker) →
  (subtheme ∉ get_all_subthemes_of (only_paid df) theme)
  ∧ ∃ row, data full_df !! i = Some row
      ∧ ∀ c, c ∈ row.*1 →
          ∃ theme' subtheme' r,
            theme' ∈ themes ∧ r ∈ df ∧ tp_despesa r = paid_marker
            ∧ ds_funcao_governo r = theme'
            ∧ ds_subfuncao_governo r = subtheme'
            ∧ (theme', subtheme') ≠ (theme, subtheme)
            ∧ c = subtheme_column theme' subtheme'.
Proof.
  intros Hcall Hi Hdf Hunpaid.
  assert (∀ t s, s ∈ get_all_subthemes_of (only_paid df) t →
            ∃ r, r ∈ df ∧ tp_despesa r = paid_marker
                 ∧ ds_funcao_governo r = t ∧ ds_subfuncao_governo r = s
                 ∧ (t, s) ≠ (theme, subtheme)) as Hpaid.
  { intros t s (r & Hr & <- & <-)%elem_of_get_all_subthemes_of.
    rewrite only_paid_filter in Hr. apply list_elem_of_filter in Hr as [Hp Hr].
    exists r. split_and!; [done..|]. intros [= Ht Hs]. by eapply Hunpaid. }
  split.
  - intros (r & ? & ? & ? & ? & Hne)%Hpaid. by apply Hne.
  - rewrite get_all_subthemes_historical_loop in Hcall.
    apply historical_loop_inv in Hcall as (Hrows & _ & _).
    destruct (Forall2_lookup_l _ _ _ _ _ Hrows Hi) as (row & Hrow & df' & Hdf' & Hyear).
    assert (df' = df) as -> by congruence.
    exists row. split; [done|]. intros c Hc.
    destruct (all_subthemes_year_df_columns _ _ _ _ Hyear Hc)
      as (t & s & Ht & Hs & ->).
    apply Hpaid in Hs as (r & ? & ? & ? & ? & ?). exists t, s, r. done.
Qed.

(** * Further properties of the module *)

(** ** Enumeration of themes *)

Section UniqueAppend.
Context {A : Type} `{EqDecision A}.
Implicit Types l k seen : list A.

Lemma unique_from_seen seen seen' l :
  (∀ x, x ∈ seen ↔ x ∈ seen') → unique_from seen l = unique_from seen' l.
Proof.
  revert seen seen'. induction l as [|y l IH]; intros seen seen' Hs; [done|].
  simpl. destruct (decide (y ∈ seen)) as [Hy|Hy].
  - rewrite decide_True by (by apply Hs). by apply IH.
  - rewrite decide_False by (by rewrite <- Hs). f_equal. apply IH.
    intros x. rewrite !elem_of_cons, Hs. done.
Qed.

Lemma unique_from_app seen l k :
  unique_from seen (l ++ k) = unique_from seen l ++ unique_from (l ++ seen) k.
Proof.
  revert seen. induction l as [|y l IH]; intros seen; [done|].
  simpl. destruct (decide (y ∈ seen)) as [Hy|Hy]; rewrite IH.
  - f_equal. apply unique_from_seen. intros x.
    rewrite ?elem_of_app, ?elem_of_cons, ?elem_of_app. intuition (subst; tauto).
  - simpl. do 2 f_equal. apply unique_from_seen. intros x.
    rewrite ?elem_of_app, ?elem_of_cons, ?elem_of_app. intuition (subst; tauto).
Qed.

Lemma unique_from_filter seen seen' k :
  unique_from (seen ++ seen') k
  = filter (λ x, x ∉ seen) (unique_from seen' k).
Proof.
  revert seen'. induction k as [|y k IH]; intros seen'; [done|].
  simpl. destruct (decide (y ∈ seen')) as [Hy|Hy].
  - rewrite decide_True by (apply elem_of_app; by right). apply IH.
  - rewrite filter_cons. destruct (decide (y ∉ seen)) as [Hys|Hys].
    + rewrite decide_False by (rewrite elem_of_app; tauto). f_equal.
      rewrite <- IH. apply unique_from_seen. intros x.
      rewrite ?elem_of_cons, ?elem_of_app, ?elem_of_cons. intuition (subst; tauto).
    + apply dec_stable in Hys.
      rewrite decide_True by (apply elem_of_app; by left).
      rewrite <- IH. apply unique_from_seen. intros x.
      rewrite ?elem_of_app, ?elem_of_cons. intuition (subst; tauto).
Qed.

(** Values met for the first time in the second part of a list come after
    those of the first part, in the order they are met. *)
Lemma unique_app l k :
  unique (l ++ k) = unique l ++ filter (λ x, x ∉ unique l) (unique k).
Proof.
  unfold unique at 1 2. rewrite unique_from_app.
  rewrite unique_from_filter. fold (unique k). f_equal.
  apply list_filter_iff. intros x. by rewrite elem_of_unique.
Qed.

Lemma unique_NoDup l : NoDup l → unique l = l.
Proof.
  induction 1 as [|x l Hx Hnd IH]; [done|].
  change (x :: l) with ([x] ++ l). rewrite unique_app.
  change (unique [x]) with [x]. simpl. f_equal.
  rewrite IH. apply filter_all, Forall_forall.
  intros y Hy ->%list_elem_of_singleton. done.
Qed.

Lemma unique_idemp l : unique (unique l) = unique l.
Proof. apply unique_NoDup, NoDup_unique. Qed.
End UniqueAppend.

(** X1: [get_all_themes] lists every theme some record has, each once,
    in the order the themes are first met: the themes of a table extended
    by further records are those of the table followed by the new ones. *)
Theorem get_all_themes_first_appearance (df df' : DataFrame) :
  NoDup (get_all_themes df)
  ∧ (∀ theme, theme ∈ get_all_themes df
              ↔ ∃ r, r ∈ df ∧ ds_funcao_governo r = theme)
  ∧ get_all_themes (df ++ df')
    = get_all_themes df
      ++ filter (λ theme, theme ∉ get_all_themes df) (get_all_themes df').
Proof.
  unfold get_all_themes. split_and!.
  - apply NoDup_unique.
  - intros theme. rewrite elem_of_unique, list_elem_of_fmap.
    split; intros (r & ? & ?); eauto.
  - by rewrite fmap_app, unique_app.
Qed.

Lemma elem_of_get_all_themes (df : DataFrame) (theme : string) :
  theme ∈ get_all_themes df ↔ theme ∈ ds_funcao_governo <$> df.
Proof. apply elem_of_unique. Qed.

(** ** The frame of [group_by_theme] *)

Lemma group_by_theme_labels (df : DataFrame) :
  (group_by_theme df).*1 = merge_sort String.le (get_all_themes df).
Proof.
  rewrite group_by_theme_unfold, <- list_fmap_compose.
  unfold group_keys, get_all_themes. apply list_fmap_id.
Qed.

(** X2: the row [group_by_theme] holds for a theme of the table has the
    sum of the amounts of the theme's records and the subthemes
    [get_all_subthemes_of] enumerates for the theme, in the same order; a
    theme the table lacks has no row and its lookup raises [KeyError].
    The rows come in increasing label order, one per theme. *)
Theorem group_by_theme_rows (df : DataFrame) (theme : string) :
  (theme ∈ get_all_themes df →
     loc theme (group_by_theme df)
     = Ok {| theme_total :=
               series_sum (vl_despesa <$>
                        filter (λ r, ds_funcao_governo r = theme) df);
             theme_subthemes := get_all_subthemes_of df theme |})
  ∧ (theme ∉ get_all_themes df →
     loc theme (group_by_theme df) = Raise (KeyError theme))
  ∧ StronglySorted String.le ((group_by_theme df).*1)
  ∧ NoDup ((group_by_theme df).*1)
  ∧ (group_by_theme df).*1 ≡ₚ get_all_themes df.
Proof.
  rewrite loc_group_by_theme, group_by_theme_labels. split_and!.
  - intros Hin%elem_of_get_all_themes. rewrite decide_True by done.
    unfold agg_theme, get_all_subthemes_of. by rewrite getitem_eq_mask.
  - intros Hin. rewrite elem_of_get_all_themes in Hin. by rewrite decide_False.
  - apply StronglySorted_merge_sort; apply _.
  - rewrite merge_sort_Permutation. apply NoDup_unique.
  - apply merge_sort_Permutation.
Qed.


(** X4: the groups of [group_by_theme_and_subtheme] partition the
    records.  No pair labels two rows; the total of a pair is the sum of
    the amounts of the records of the pair, in table order; and the
    records of the pairs, taken together, are the records of the table,
    each once. *)
Theorem pair_groups_partition_records (df : DataFrame) :
  NoDup ((group_by_theme_and_subtheme df).*1)
  ∧ group_by_theme_and_subtheme df
    = (λ pair, (pair, series_sum (vl_despesa <$>
                        filter (λ r, theme_key r = pair) df)))
        <$> (group_by_theme_and_subtheme df).*1
  ∧ concat ((λ pair, filter (λ r, theme_key r = pair) df)
              <$> (group_by_theme_and_subtheme df).*1)
    ≡ₚ df.
Proof.
  rewrite group_by_theme_and_subtheme_labels. split_and!.
  - apply (NoDup_group_keys pair_le).
  - unfold group_by_theme_and_subtheme, groupby.
    by rewrite <- list_fmap_compose.
  - apply (filter_partition theme_key (group_keys pair_le theme_key df)).
    + apply (NoDup_group_keys pair_le).
    + apply (group_keys_cover pair_le).
Qed.

(** ** The frame of [group_by_theme_and_subtheme] *)

(** X5: [group_by_theme_and_subtheme] has one row per (theme, subtheme)
    pair some record bears, holding the sum of the amounts of the records
    of the pair; the rows come in increasing lexicographic order of the
    pairs, none twice. *)
Theorem group_by_theme_and_subtheme_rows (df : DataFrame) :
  (∀ theme subtheme total,
     ((theme, subtheme), total) ∈ group_by_theme_and_subtheme df
     ↔ (∃ r, r ∈ df ∧ ds_funcao_governo r = theme
             ∧ ds_subfuncao_governo r = subtheme)
       ∧ total = pair_total df theme subtheme)
  ∧ StronglySorted pair_le ((group_by_theme_and_subtheme df).*1)
  ∧ NoDup ((group_by_theme_and_subtheme df).*1).
Proof.
  rewrite group_by_theme_and_subtheme_unfold.
  assert (((λ k : string * string, (k, pair_total df k.1 k.2))
             <$> group_keys pair_le theme_key df).*1
          = group_keys pair_le theme_key df) as ->.
  { rewrite <- list_fmap_compose. apply list_fmap_id. }
  split_and!.
  - intros theme subtheme total. rewrite list_elem_of_fmap.
    rewrite <- elem_of_theme_keys. split.
    + intros ([t s] & [= -> -> ->] & Hk). done.
    + intros [Hk ->]. by exists (theme, subtheme).
  - apply (StronglySorted_group_keys pair_le).
  - apply (NoDup_group_keys pair_le).
Qed.

(** ** Enumeration and lookup together *)

(** X6: every theme [get_all_themes] returns is a valid argument of the
    functions that take a theme: its row is found in the frame of
    [group_by_theme], [group_by_subtheme] returns a frame with at least
    one row, and [get_all_subthemes_of] returns at least one subtheme.
    For any other string the two lookups raise [KeyError] and the
    enumeration is empty. *)
Theorem get_all_themes_valid_arguments (df : DataFrame) (theme : string) :
  (theme ∈ get_all_themes df →
     (∃ theme_df, loc theme (group_by_theme df) = Ok theme_df)
     ∧ (∃ by_subtheme, group_by_subtheme df theme = Ok by_subtheme
                       ∧ by_subtheme ≠ [])
     ∧ get_all_subthemes_of df theme ≠ [])
  ∧ (theme ∉ get_all_themes df →
     loc theme (group_by_theme df) = Raise (KeyError theme)
     ∧ group_by_subtheme df theme = Raise (KeyError theme)
     ∧ get_all_subthemes_of df theme = []).
Proof.
  rewrite loc_group_by_theme, group_by_subtheme_unfold.
  rewrite elem_of_get_all_themes. split; intros Hin.
  - rewrite !decide_True by done.
    assert (get_all_subthemes_of df theme ≠ []) as Hne
      by (by intros ?%get_all_subthemes_of_nil).
    split_and!; [by eexists| |done].
    eexists. split; [done|]. intros Hnil%fmap_nil_inv.
    apply Hne, Permutation_nil_r. rewrite <- Hnil.
    by rewrite merge_sort_Permutation.
  - rewrite !decide_False by done. split_and!; [done..|].
    by apply get_all_subthemes_of_nil.
Qed.

(** X7: a subtheme [get_all_subthemes_of] enumerates for a theme is
    always found in the frame [group_by_subtheme] returns for the theme,
    with the total of the records of the pair; a subtheme it does not
    enumerate, under a theme of the table, raises [KeyError] with the
    subtheme. *)
Theorem enumerated_subtheme_lookup (df : DataFrame) (theme subtheme : string) :
  (subtheme ∈ get_all_subthemes_of df theme →
     ∃ by_subtheme, group_by_subtheme df theme = Ok by_subtheme
       ∧ loc subtheme by_subtheme = Ok (pair_total df theme subtheme))
  ∧ (theme ∈ get_all_themes df →
     subtheme ∉ get_all_subthemes_of df theme →
     ∃ by_subtheme, group_by_subtheme df theme = Ok by_subtheme
       ∧ loc subtheme by_subtheme = Raise (KeyError subtheme)).
Proof.
  rewrite group_by_subtheme_unfold, elem_of_get_all_themes. split.
  - intros Hs. rewrite decide_True by (by eapply theme_of_subtheme).
    eexists. split; [done|]. by rewrite loc_subtheme_totals, decide_True.
  - intros Hin Hs. rewrite decide_True by done.
    eexists. split; [done|]. by rewrite loc_subtheme_totals, decide_False.
Qed.

(** ** Rows and frames of the series *)

Lemma foldl_fmap_list {A B C} (f : A → B → A) (g : C → B) (a : A) (l : list C) :
  foldl f a (g <$> l) = foldl (λ a x, f a (g x)) a l.
Proof. revert a. induction l as [|x l IH]; intros a; [done|]. simpl. apply IH. Qed.

Lemma foldl_bind_list {A B C} (f : A → B → A) (g : C → list B) (a : A)
    (l : list C) :
  foldl f a (l ≫= g) = foldl (λ a x, foldl f a (g x)) a l.
Proof.
  revert a. induction l as [|x l IH]; intros a; [done|].
  rewrite bind_cons, foldl_app. simpl. apply IH.
Qed.

Lemma elem_of_discovered_pairs (paid_df : DataFrame) (themes : list string)
    (theme subtheme : string) :
  (theme, subtheme) ∈ discovered_pairs paid_df themes
  ↔ theme ∈ themes ∧ subtheme ∈ get_all_subthemes_of paid_df theme.
Proof.
  unfold discovered_pairs. rewrite list_elem_of_bind. split.
  - intros (t & (s & [= -> ->] & Hs)%list_elem_of_fmap & Ht). done.
  - intros [Ht Hs]. exists theme. split; [|done]. by apply list_elem_of_fmap_2.
Qed.

Lemma discovered_pairs_present (paid_df : DataFrame) (themes : list string)
    (ts : string * string) :
  ts ∈ discovered_pairs paid_df themes → ts ∈ theme_key <$> paid_df.
Proof.
  destruct ts as [theme subtheme].
  intros [_ Hs]%elem_of_discovered_pairs. by apply elem_of_theme_key.
Qed.

Lemma subthemed_year_df_Ok (paid_df : DataFrame)
    (subthemes : list (string * string)) :
  (∀ ts, ts ∈ subthemes → ts ∈ theme_key <$> paid_df) →
  subthemed_year_df paid_df subthemes
  = Ok (foldl (λ row ts,
                 setitem (subtheme_column ts.1 ts.2)
                   (pair_total paid_df ts.1 ts.2) row) [] subthemes).
Proof.
  intros Hall. unfold subthemed_year_df. apply for_each_total.
  intros ts row Hin%Hall. rewrite subthemed_body.
  rewrite (decide_True (P := ts ∈ _)) by done.
  rewrite decide_True; [done|]. destruct ts as [theme subtheme].
  by eapply theme_of_subtheme, elem_of_theme_key.
Qed.

Lemma all_subthemes_year_df_Ok (paid_df : DataFrame) (themes : list string) :
  (∀ theme, theme ∈ themes → theme ∈ ds_funcao_governo <$> paid_df) →
  all_subthemes_year_df paid_df themes
  = Ok (foldl (λ row ts,
                 setitem (subtheme_column ts.1 ts.2)
                   (pair_total paid_df ts.1 ts.2) row) []
          (discovered_pairs paid_df themes)).
Proof.
  intros Hall. unfold all_subthemes_year_df, discovered_pairs.
  rewrite foldl_bind_list. apply for_each_total.
  intros theme row Hin%Hall. cbv zeta. rewrite all_subthemes_body.
  rewrite decide_True by done. by rewrite foldl_fmap_list.
Qed.


Lemma row_cell_None (c : string) (row : Row) :
  row_cell c row = None ↔ c ∉ row.*1.
Proof.
  induction row as [|[k v] row IH]; simpl.
  - split; [intros _; apply not_elem_of_nil|done].
  - rewrite not_elem_of_cons. destruct (decide (k = c)) as [->|Hk].
    + split; [done|tauto].
    + rewrite IH. split; [|tauto]. intros ?. split; [congruence|done].
Qed.

(** ** The series of requested pairs *)

(** X8: when every year's data is fetched and has every requested pair
    among its paid records, [get_subthemed_historical] returns a frame
    indexed by the years as given, one row per year.  When at least one
    year is given, its columns are the names
    ["vl_despesa_<theme>_<subtheme>"] of the requested pairs, each once, in
    the order of first request (with no year the frame has no column).
    The cell of a year under the column of a requested pair is the total
    of the year's paid records of the pair, provided no other requested
    pair has the same column name. *)
Theorem subthemed_historical_frame
    (get_expenses : string → Z → result DataFrame) (city : string)
    (years : list Z) (subthemes : list (string * string)) :
  (∀ y, y ∈ years →
     ∃ df, get_expenses city y = Ok df
           ∧ ∀ ts, ts ∈ subthemes → ts ∈ theme_key <$> only_paid df) →
  ∃ full_df,
    get_subthemed_historical get_expenses city years subthemes = Ok full_df
    ∧ index full_df = years
    ∧ length (data full_df) = length years
    ∧ (years ≠ [] →
       columns full_df
       = unique ((λ ts, subtheme_column ts.1 ts.2) <$> subthemes))
    ∧ (years = [] → columns full_df = [])
    ∧ (∀ i y df ts,
         years !! i = Some y → get_expenses city y = Ok df → ts ∈ subthemes →
         (∀ ts', ts' ∈ subthemes →
                 subtheme_column ts'.1 ts'.2 = subtheme_column ts.1 ts.2 →
                 ts' = ts) →
         cell full_df i (subtheme_column ts.1 ts.2)
         = Some (pair_total (only_paid df) ts.1 ts.2)).
Proof.
  intros Hall.
  set (row_of := λ df : DataFrame,
    foldl (λ row (ts : string * string),
             setitem (subtheme_column ts.1 ts.2)
               (pair_total (only_paid df) ts.1 ts.2) row) [] subthemes).
  destruct (historical_loop_frame get_expenses
              (λ paid_df, subthemed_year_df paid_df subthemes) city years
              (λ df, ∀ ts, ts ∈ subthemes → ts ∈ theme_key <$> only_paid df)
              row_of) as (rows & Hrows & Hcall); [| |done|].
  { intros df Hdf. by apply subthemed_year_df_Ok. }
  { destruct subthemes as [|ts subthemes]; [by right|left].
    intros df _. by apply assign_not_nil. }
  assert (∀ row, row ∈ rows →
            row.*1 = unique ((λ ts, subtheme_column ts.1 ts.2) <$> subthemes))
    as Hcols.
  { intros row (i & Hi)%list_elem_of_lookup_1.
    destruct (Forall2_lookup_r _ _ _ _ _ Hrows Hi) as (y & _ & df & _ & _ & ->).
    apply (assign_columns (λ ts : string * string, subtheme_column ts.1 ts.2)). }
  eexists. rewrite get_subthemed_historical_loop. split_and!; [exact Hcall|..].
  - done.
  - simpl. symmetry. by eapply Forall2_length.
  - intros Hyears. simpl. apply columns_foldl_append_same_rows.
    + by eapply Forall2_rows_nonempty.
    + by apply Forall_forall.
  - intros ->. apply Forall2_nil_inv_l in Hrows as ->. done.
  - intros i y df ts Hi Hdf Hin Hcol. unfold cell. simpl.
    destruct (Forall2_lookup_l _ _ _ _ _ Hrows Hi) as (row & -> & df' & Hdf' & _ & ->).
    simpl. assert (df' = df) as -> by congruence.
    apply (assign_cell (λ ts : string * string, subtheme_column ts.1 ts.2)
             (λ ts, pair_total (only_paid df) ts.1 ts.2)).
    + intros ts' Hin' Heq. by rewrite (Hcol ts' Hin' Heq).
    + right. eauto.
Qed.

(** ** The series of discovered subthemes *)

Lemma discovered_pairs_nonempty (paid_df : DataFrame) (themes : list string) :
  themes ≠ [] →
  (∀ theme, theme ∈ themes → theme ∈ ds_funcao_governo <$> paid_df) →
  discovered_pairs paid_df themes ≠ [].
Proof.
  destruct themes as [|theme themes]; [done|]. intros _ Hall Hnil.
  assert (theme ∈ ds_funcao_governo <$> paid_df) as Hin by (apply Hall; left).
  destruct (get_all_subthemes_of paid_df theme) as [|s l] eqn:Hs.
  - by apply get_all_subthemes_of_nil in Hs.
  - assert ((theme, s) ∈ discovered_pairs paid_df (theme :: themes)) as Hp.
    { apply elem_of_discovered_pairs. split; [left|]. rewrite Hs. left. }
    rewrite Hnil in Hp. by apply elem_of_nil in Hp.
Qed.

(** X9: when at least one theme is requested (or no year is), and every
    year's data is fetched and has every requested theme among its paid
    records, [get_all_subthemes_historical] returns a frame indexed by the
    years as given, one row per year.  Its columns are the names of the
    pairs discovered in some year.  In the row of a year, the cell under
    the column of a pair discovered that year is the total of the year's
    paid records of the pair (provided no other pair discovered that year
    has the same column name), and the cell under any column no pair
    discovered that year is named by is NaN: columns that come from other
    years are neither filled nor dropped. *)
Theorem all_subthemes_historical_frame
    (get_expenses : string → Z → result DataFrame) (city : string)
    (years : list Z) (themes : list string) :
  themes ≠ [] ∨ years = [] →
  (∀ y, y ∈ years →
     ∃ df, get_expenses city y = Ok df
           ∧ ∀ theme, theme ∈ themes →
               theme ∈ ds_funcao_governo <$> only_paid df) →
  ∃ full_df,
    get_all_subthemes_historical get_expenses city years themes = Ok full_df
    ∧ index full_df = years
    ∧ length (data full_df) = length years
    ∧ (∀ c, c ∈ columns full_df
            ↔ ∃ y df ts, y ∈ years ∧ get_expenses city y = Ok df
                ∧ ts ∈ discovered_pairs (only_paid df) themes
                ∧ c = subtheme_column ts.1 ts.2)
    ∧ (∀ i y df,
         years !! i = Some y → get_expenses city y = Ok df →
         (∀ ts, ts ∈ discovered_pairs (only_paid df) themes →
            (∀ ts', ts' ∈ discovered_pairs (only_paid df) themes →
                    subtheme_column ts'.1 ts'.2 = subtheme_column ts.1 ts.2 →
                    ts' = ts) →
            cell full_df i (subtheme_column ts.1 ts.2)
            = Some (pair_total (only_paid df) ts.1 ts.2))
         ∧ (∀ c, (∀ ts, ts ∈ discovered_pairs (only_paid df) themes →
                        subtheme_column ts.1 ts.2 ≠ c) →
                 cell full_df i c = None)).
Proof.
  intros Hne Hall.
  set (col := λ ts : string * string, subtheme_column ts.1 ts.2).
  set (row_of := λ df : DataFrame,
    foldl (λ row (ts : string * string),
             setitem (subtheme_column ts.1 ts.2)
               (pair_total (only_paid df) ts.1 ts.2) row) []
      (discovered_pairs (only_paid df) themes)).
  assert (∀ df c, c ∈ (row_of df).*1
            ↔ ∃ ts, ts ∈ discovered_pairs (only_paid df) themes ∧ c = col ts)
    as Hrow_cols.
  { intros df c. unfold row_of.
    rewrite (assign_columns col), elem_of_unique, list_elem_of_fmap.
    split; intros (ts & ? & ?); eauto. }
  destruct (historical_loop_frame get_expenses
              (λ paid_df, all_subthemes_year_df paid_df themes) city years
              (λ df, ∀ theme, theme ∈ themes →
                       theme ∈ ds_funcao_governo <$> only_paid df)
              row_of) as (rows & Hrows & Hcall); [| |done|].
  { intros df Hdf. by apply all_subthemes_year_df_Ok. }
  { destruct themes as [|theme themes]; [by right|left].
    intros df Hdf. apply assign_not_nil.
    by apply discovered_pairs_nonempty. }
  eexists. rewrite get_all_subthemes_historical_loop.
  split_and!; [exact Hcall|..].
  - done.
  - simpl. symmetry. by eapply Forall2_length.
  - intros c. simpl. rewrite elem_of_columns_foldl_append. simpl. split.
    + intros [[]%elem_of_nil|(row & (i & Hi)%list_elem_of_lookup_1 & Hc)].
      destruct (Forall2_lookup_r _ _ _ _ _ Hrows Hi) as (y & Hy & df & Hdf & _ & ->).
      apply Hrow_cols in Hc as (ts & Hts & ->).
      exists y, df, ts. split_and!; [|done..]. by eapply list_elem_of_lookup_2.
    + intros (y & df & ts & (i & Hi)%list_elem_of_lookup_1 & Hdf & Hts & ->).
      destruct (Forall2_lookup_l _ _ _ _ _ Hrows Hi) as (row & Hrow & df' & Hdf' & _ & ->).
      assert (df' = df) as -> by congruence.
      right. exists (row_of df). split; [by eapply list_elem_of_lookup_2|].
      apply Hrow_cols. eauto.
  - intros i y df Hi Hdf. unfold cell. simpl.
    destruct (Forall2_lookup_l _ _ _ _ _ Hrows Hi) as (row & -> & df' & Hdf' & _ & ->).
    simpl. assert (df' = df) as -> by congruence. split.
    + intros ts Hts Hcol.
      apply (assign_cell col (λ ts, pair_total (only_paid df) ts.1 ts.2)).
      * intros ts' Hin' Heq. by rewrite (Hcol ts' Hin' Heq).
      * right. eauto.
    + intros c Hc. apply row_cell_None. intros (ts & Hts & ->)%Hrow_cols.
      by apply (Hc ts).
Qed.

(** ** Edge cases of the three series *)

(** X10: with an empty selection, each of the three functions fetches the
    data of every year, builds a row without columns for each, and
    returns a frame that has no column and is indexed by the years as
    given: the index assignment, on a frame without columns, sets the
    number of rows to the number of years.  Nothing is raised. *)
Theorem empty_selection_frame (get_expenses : string → Z → result DataFrame)
    (city : string) (years : list Z) :
  (∀ y, y ∈ years → ∃ df, get_expenses city y = Ok df) →
  let no_column :=
    {| columns := []; index := years; data := replicate (length years) [] |} in
  get_themed_historical get_expenses city years [] = Ok no_column
  ∧ get_subthemed_historical get_expenses city years [] = Ok no_column
  ∧ get_all_subthemes_historical get_expenses city years [] = Ok no_column.
Proof.
  intros Hall no_column.
  rewrite get_themed_historical_loop, get_subthemed_historical_loop,
    get_all_subthemes_historical_loop.
  split_and!; apply historical_loop_no_row;
    intros y (df & Hdf)%Hall; by exists df.
Qed.

(** X11: an exception of the record source ends the call and is passed
    on as it is: if the years before the failing one were fetched and had
    every requested selection among their paid records, each of the three
    functions raises the exception [get_expenses] raised for that year,
    whatever the years after it hold. *)
Theorem fetch_error_propagates (get_expenses : string → Z → result DataFrame)
    (city : string) (before after : list Z) (y : Z) (e : exn) :
  get_expenses city y = Raise e →
  (∀ themes,
     (∀ y', y' ∈ before →
        ∃ df, get_expenses city y' = Ok df
              ∧ ∀ theme, theme ∈ themes →
                  theme ∈ ds_funcao_governo <$> only_paid df) →
     get_themed_historical get_expenses city (before ++ y :: after) themes
     = Raise e)
  ∧ (∀ subthemes,
     (∀ y', y' ∈ before →
        ∃ df, get_expenses city y' = Ok df
              ∧ ∀ ts, ts ∈ subthemes → ts ∈ theme_key <$> only_paid df) →
     get_subthemed_historical get_expenses city (before ++ y :: after) subthemes
     = Raise e)
  ∧ (∀ themes,
     (∀ y', y' ∈ before →
        ∃ df, get_expenses city y' = Ok df
              ∧ ∀ theme, theme ∈ themes →
                  theme ∈ ds_funcao_governo <$> only_paid df) →
     get_all_subthemes_historical get_expenses city (before ++ y :: after) themes
     = Raise e).
Proof.
  intros Hy. split_and!.
  - intros themes Hbefore. rewrite get_themed_historical_loop.
    apply historical_loop_fetch_raises; [|done].
    intros y' (df & Hdf & Hthemes)%Hbefore. eexists. exists df.
    split; [done|]. by apply themed_year_df_Ok.
  - intros subthemes Hbefore. rewrite get_subthemed_historical_loop.
    apply historical_loop_fetch_raises; [|done].
    intros y' (df & Hdf & Hpairs)%Hbefore. eexists. exists df.
    split; [done|]. by apply subthemed_year_df_Ok.
  - intros themes Hbefore. rewrite get_all_subthemes_historical_loop.
    apply historical_loop_fetch_raises; [|done].
    intros y' (df & Hdf & Hthemes)%Hbefore. eexists. exists df.
    split; [done|]. by apply all_subthemes_year_df_Ok.
Qed.

(** X12: [get_all_subthemes_historical] is [get_subthemed_historical] on
    the discovered pairs: when every year's data is fetched, has every
    requested theme among its paid records and leads to the same list of
    discovered pairs, both calls give the same result. *)
Theorem all_subthemes_as_subthemed (get_expenses : string → Z → result DataFrame)
    (city : string) (years : list Z) (themes : list string)
    (pairs : list (string * string)) :
  (∀ y, y ∈ years →
     ∃ df, get_expenses city y = Ok df
           ∧ (∀ theme, theme ∈ themes →
                theme ∈ ds_funcao_governo <$> only_paid df)
           ∧ discovered_pairs (only_paid df) themes = pairs) →
  get_all_subthemes_historical get_expenses city years themes
  = get_subthemed_historical get_expenses city years pairs.
Proof.
  intros Hall.
  rewrite get_all_subthemes_historical_loop, get_subthemed_historical_loop.
  apply historical_loop_ext. intros y df Hy Hdf.
  destruct (Hall y Hy) as (df' & Hdf' & Hthemes & Hpairs).
  assert (df' = df) as -> by congruence.
  rewrite all_subthemes_year_df_Ok by done.
  rewrite subthemed_year_df_Ok; [by rewrite Hpairs|].
  intros ts Hts. rewrite <- Hpairs in Hts.
  by eapply discovered_pairs_present.
Qed.

(** ** The names [get_expenses] builds *)

Lemma list_ascii_of_string_app (s1 s2 : string) :
  String.list_ascii_of_string (s1 +:+ s2)
  = String.list_ascii_of_string s1 ++ String.list_ascii_of_string s2.
Proof. induction s1 as [|a s1 IH]; [done|]. simpl. by rewrite <- IH. Qed.

Lemma list_ascii_of_string_inj (s1 s2 : string) :
  String.list_ascii_of_string s1 = String.list_ascii_of_string s2 → s1 = s2.
Proof.
  intros H. rewrite <- (String.string_of_list_ascii_of_string s1),
    <- (String.string_of_list_ascii_of_string s2). by rewrite H.
Qed.

(** Two lists cut at the last occurrence of a separator are equal only if
    both parts are. *)
Lemma split_at_last {A} (x : A) (l1 l2 k1 k2 : list A) :
  x ∉ k1 → x ∉ k2 → l1 ++ x :: k1 = l2 ++ x :: k2 → l1 = l2 ∧ k1 = k2.
Proof.
  intros Hk1 Hk2. revert l2.
  induction l1 as [|a l1 IH]; intros [|b l2]; simpl.
  - by intros [= ->].
  - intros [= -> ->]. destruct Hk1. apply elem_of_app. right. left.
  - intros [= -> <-]. destruct Hk2. apply elem_of_app. right. left.
  - intros [= -> Heq]. destruct (IH l2 Heq) as [-> ->]. done.
Qed.

Lemma uint_digits (d : Decimal.uint) (a : Ascii.ascii) :
  a ∈ String.list_ascii_of_string (NilEmpty.string_of_uint d) →
  a ∈ ["0"; "1"; "2"; "3"; "4"; "5"; "6"; "7"; "8"; "9"]%char.
Proof.
  induction d as [|d IH|d IH|d IH|d IH|d IH|d IH|d IH|d IH|d IH|d IH]; simpl;
    [by intros ?%elem_of_nil|..];
    (intros [->|?]%elem_of_cons; [by_decide|by apply IH]).
Qed.

Lemma str_int_chars (n : Z) (a : Ascii.ascii) :
  a ∈ String.list_ascii_of_string (str_int n) →
  a ∈ ["0"; "1"; "2"; "3"; "4"; "5"; "6"; "7"; "8"; "9"]%char
  ∨ (n < 0 ∧ a = "-"%char).
Proof.
  unfold str_int. destruct n as [|p|p]; simpl.
  - intros ->%list_elem_of_singleton. left. by_decide.
  - unfold NilZero.string_of_uint.
    pose proof (DecimalPos.Unsigned.to_uint_nonnil p) as Hnil.
    destruct (Pos.to_uint p) eqn:Hp; [done|..]; rewrite <- Hp;
      intros ?%uint_digits; by left.
  - unfold NilZero.string_of_uint.
    pose proof (DecimalPos.Unsigned.to_uint_nonnil p) as Hnil.
    intros [->|Ha]%elem_of_cons; [right; split; [lia|done]|left].
    destruct (Pos.to_uint p) eqn:Hp; [done|..]; rewrite <- Hp in Ha;
      by apply uint_digits in Ha.
Qed.

Lemma str_int_no_underscore (n : Z) :
  "_"%char ∉ String.list_ascii_of_string (str_int n).
Proof.
  intros [Hd|[_ [=]]]%str_int_chars. revert Hd. by_decide.
Qed.

Lemma str_int_no_minus (n : Z) :
  0 ≤ n → "-"%char ∉ String.list_ascii_of_string (str_int n).
Proof.
  intros Hn [Hd|[? _]]%str_int_chars; [|lia]. revert Hd. by_decide.
Qed.

Lemma str_int_inj (n m : Z) : str_int n = str_int m → n = m.
Proof.
  assert (∀ z, NilZero.int_of_string (str_int z) = Some (Z.to_int z)) as Hparse.
  { intros z. unfold str_int. apply NilZero.isi; destruct z as [|p|p]; simpl;
      try done; intros [= Hp]; by apply DecimalPos.Unsigned.to_uint_nonnil in Hp. }
  intros Heq. pose proof (Hparse n) as Hn. rewrite Heq, Hparse in Hn.
  injection Hn as Hn. by rewrite <- (DecimalZ.of_to n), <- Hn, DecimalZ.of_to.
Qed.

(** X13: the archive of a city and year is saved under a name no other
    city and year share: two requests have the same archive path only if
    they are the same request. *)
Theorem expenses_zipfile_inj (city1 city2 : string) (year1 year2 : Z) :
  expenses_zipfile city1 year1 = expenses_zipfile city2 year2
  ↔ city1 = city2 ∧ year1 = year2.
Proof.
  split; [|by intros [-> ->]].
  unfold expenses_zipfile. intros Heq%(f_equal String.list_ascii_of_string).
  rewrite !list_ascii_of_string_app in Heq. apply app_inv_head in Heq.
  change (String.list_ascii_of_string "_") with ["_"%char] in Heq. simpl in Heq.
  apply split_at_last in Heq as [Hc Hy].
  - apply list_ascii_of_string_inj in Hc. apply app_inv_tail in Hy.
    by apply list_ascii_of_string_inj, str_int_inj in Hy.
  - intros [?%str_int_no_underscore|Hz]%elem_of_app; [done|].
    revert Hz. by_decide.
  - intros [?%str_int_no_underscore|Hz]%elem_of_app; [done|].
    revert Hz. by_decide.
Qed.

(** X14: for years that are not negative, the address of the archive
    identifies the request: two requests have the same address only if
    they are for the same city and year. *)
Theorem expenses_url_inj (city1 city2 : string) (year1 year2 : Z) :
  0 ≤ year1 → 0 ≤ year2 →
  expenses_url city1 year1 = expenses_url city2 year2
  ↔ city1 = city2 ∧ year1 = year2.
Proof.
  intros Hy1 Hy2. split; [|by intros [-> ->]].
  unfold expenses_url. intros Heq%(f_equal String.list_ascii_of_string).
  rewrite !list_ascii_of_string_app in Heq.
  rewrite <- !(app_assoc (String.list_ascii_of_string url_prefix
                          ++ String.list_ascii_of_string "-")) in Heq.
  apply app_inv_head in Heq.
  change (String.list_ascii_of_string "-") with ["-"%char] in Heq.
  rewrite <- !app_assoc in Heq. simpl in Heq.
  apply split_at_last in Heq as [Hc Hy].
  - apply list_ascii_of_string_inj in Hc. apply app_inv_tail in Hy.
    by apply list_ascii_of_string_inj, str_int_inj in Hy.
  - intros [?%str_int_no_minus|Hz]%elem_of_app; [done|done|].
    revert Hz. by_decide.
  - intros [?%str_int_no_minus|Hz]%elem_of_app; [done|done|].
    revert Hz. by_decide.
Qed.

Lemma expenses_url_inj_witness :
  expenses_url "campinas" 2019 = expenses_url "campinas" 2019
  ↔ "campinas" = "campinas" ∧ 2019 = 2019.
Proof.
  apply (expenses_url_inj "campinas" "campinas" 2019 2019); lia.
Defined.

(** The sign condition is needed: a minus sign is read as a separator. *)
Example expenses_url_negative_year :
  expenses_url "a-" 5 = expenses_url "a" (-5).
Proof. reflexivity. Qed.

Example expenses_url_sample :
  expenses_url "campinas" 2019
  = "https://transparencia.tce.sp.gov.br/sites/default/files/csv/despesas-campinas-2019.zip"
  ∧ expenses_zipfile "campinas" 2019 = "data/expense_campinas_2019.zip".
Proof. split; reflexivity. Qed.

(** ** Requested pairs that share a column *)

Section LastAssignment.
Context {K : Type} (col : K → string) (val : K → float).

Local Abbreviation assign := (λ (row : Row) (k : K), setitem (col k) (val k) row).

Lemma assign_cell_other (ks : list K) (row : Row) (c : string) :
  (∀ k, k ∈ ks → col k ≠ c) →
  row_cell c (foldl assign row ks) = row_cell c row.
Proof.
  revert row. induction ks as [|k ks IH]; intros row Hks; [done|].
  simpl. rewrite IH by (intros ??; apply Hks; by right).
  rewrite row_cell_setitem. rewrite decide_False; [done|]. apply Hks. left.
Qed.

Lemma assign_cell_last (before after : list K) (k : K) (row : Row) :
  (∀ k', k' ∈ after → col k' ≠ col k) →
  row_cell (col k) (foldl assign row (before ++ k :: after)) = Some (val k).
Proof.
  intros Hafter. rewrite foldl_app. simpl.
  rewrite assign_cell_other by done.
  rewrite row_cell_setitem. by rewrite decide_True.
Qed.
End LastAssignment.

(** X15: when several requested pairs have the same column name, the
    column holds the pair requested last: in the frame
    [get_subthemed_historical] returns, the cell of a year under the
    column of a requested pair is the total of the year's paid records of
    that pair whenever no pair requested after it has the same column
    name. *)
Theorem subthemed_last_request_wins
    (get_expenses : string → Z → result DataFrame) (city : string)
    (years : list Z) (before after : list (string * string))
    (ts : string * string) :
  (∀ y, y ∈ years →
     ∃ df, get_expenses city y = Ok df
           ∧ ∀ ts', ts' ∈ before ++ ts :: after →
                    ts' ∈ theme_key <$> only_paid df) →
  (∀ ts', ts' ∈ after →
          subtheme_column ts'.1 ts'.2 ≠ subtheme_column ts.1 ts.2) →
  ∃ full_df,
    get_subthemed_historical get_expenses city years (before ++ ts :: after)
    = Ok full_df
    ∧ ∀ i y df,
        years !! i = Some y → get_expenses city y = Ok df →
        cell full_df i (subtheme_column ts.1 ts.2)
        = Some (pair_total (only_paid df) ts.1 ts.2).
Proof.
  intros Hall Hafter.
  set (row_of := λ df : DataFrame,
    foldl (λ row (ts : string * string),
             setitem (subtheme_column ts.1 ts.2)
               (pair_total (only_paid df) ts.1 ts.2) row) []
      (before ++ ts :: after)).
  destruct (historical_loop_frame get_expenses
              (λ paid_df, subthemed_year_df paid_df (before ++ ts :: after))
              city years
              (λ df, ∀ ts', ts' ∈ before ++ ts :: after →
                            ts' ∈ theme_key <$> only_paid df)
              row_of) as (rows & Hrows & Hcall); [| |done|].
  { intros df Hdf. by apply subthemed_year_df_Ok. }
  { left. intros df _. apply assign_not_nil. by destruct before. }
  eexists. rewrite get_subthemed_historical_loop. split; [exact Hcall|].
  intros i y df Hi Hdf. unfold cell. simpl.
  destruct (Forall2_lookup_l _ _ _ _ _ Hrows Hi) as (row & -> & df' & Hdf' & _ & ->).
  simpl. assert (df' = df) as -> by congruence.
  by apply (assign_cell_last (λ ts : string * string, subtheme_column ts.1 ts.2)
              (λ ts, pair_total (only_paid df) ts.1 ts.2)).
Qed.

End Aggregation.

(** * The functions on sample data *)

(** From here on the sum of a group is pandas' compensated sum,
    [kahan_sum], or the plain left-to-right sum, [plain_sum]. *)

(** ** Running the functions *)

Example only_paid_sample : length (only_paid sample_table) = 4%nat.
Proof. reflexivity. Qed.

Example group_by_theme_sample :
  group_by_theme kahan_sum (only_paid sample_table) =
  [ ("Educacao", mkThemeRow 7%float ["Ensino Basico"]);
    ("Saude", mkThemeRow 151%float ["Hospitais"; "Clinicas"]) ].
Proof. vm_compute. reflexivity. Qed.

Example group_by_theme_and_subtheme_sample :
  group_by_theme_and_subtheme kahan_sum sample_table =
  [ (("Educacao", "Ensino Basico"), 7%float);
    (("Saude", "Clinicas"), 50.25%float);
    (("Saude", "Hospitais"), 1099.75%float) ].
Proof. vm_compute. reflexivity. Qed.

Example group_by_subtheme_sample :
  group_by_subtheme kahan_sum sample_table "Saude" =
  Ok [ ("Clinicas", 50.25%float); ("Hospitais", 1099.75%float) ].
Proof. vm_compute. reflexivity. Qed.

Example group_by_subtheme_missing :
  group_by_subtheme kahan_sum sample_table "Cultura" = Raise (KeyError "Cultura").
Proof. vm_compute. reflexivity. Qed.

Example themed_historical_sample :
  get_themed_historical kahan_sum sample_source "campinas" [2019; 2020] ["Saude"] =
  Ok (mkFrame ["vl_despesa_Saude"] [2019; 2020]
        [ [("vl_despesa_Saude", 151%float)]; [("vl_despesa_Saude", 200%float)] ]).
Proof. vm_compute. reflexivity. Qed.

Example all_subthemes_historical_sample :
  get_all_subthemes_historical kahan_sum sample_source "campinas" [2019; 2020]
    ["Saude"] =
  Ok (mkFrame ["vl_despesa_Saude_Hospitais"; "vl_despesa_Saude_Clinicas"]
        [2019; 2020]
        [ [("vl_despesa_Saude_Hospitais", 100.75%float);
           ("vl_despesa_Saude_Clinicas", 50.25%float)];
          [("vl_despesa_Saude_Hospitais", 200%float)] ]).
Proof. vm_compute. reflexivity. Qed.

(** The two sums agree on the amounts used below, and depend on the
    order of the amounts. *)
Example sums_depend_on_order :
  plain_sum [0.01; 0.1; 0.01]%float = 0.12%float
  ∧ kahan_sum [0.01; 0.1; 0.01]%float = 0.12%float
  ∧ plain_sum [0.01; 0.01; 0.1]%float = 0.12000000000000001%float
  ∧ kahan_sum [0.01; 0.01; 0.1]%float = 0.12000000000000001%float.
Proof. split_and!; vm_compute; reflexivity. Qed.

(** ** Totals of totals *)




Lemma group_by_subtheme_raises_or_totals_witness :
  group_by_subtheme kahan_sum sample_table "Cultura" = Raise (KeyError "Cultura")
  ∧ group_by_subtheme kahan_sum sample_table "Saude"
    = Ok [("Clinicas", 50.25%float); ("Hospitais", 1099.75%float)]
  ∧ get_all_subthemes_of sample_table "Saude" ≠ [].
Proof.
  split.
  - apply (proj1 (group_by_subtheme_raises_or_totals kahan_sum sample_table
                    "Cultura")).
    by_decide.
  - apply (proj2 (group_by_subtheme_raises_or_totals kahan_sum sample_table
                    "Saude")).
    by_decide.
Defined.

(** ** The order of the records *)



(** ** The themed series *)

(** C4, as stated, fails: with no year requested every lookup succeeds
    (there is none), and the frame returned has no column, whatever
    themes are requested. *)
Lemma themed_historical_no_year_no_column :
  (∀ y, y ∈ [] →
     ∃ df, sample_source "campinas" y = Ok df
           ∧ ∀ theme, theme ∈ ["Saude"] →
               theme ∈ ds_funcao_governo <$> only_paid df)
  ∧ get_themed_historical kahan_sum sample_source "campinas" [] ["Saude"]
    = Ok (mkFrame [] [] [])
  ∧ theme_column "Saude" ∉ columns (mkFrame [] [] []).
Proof.
  split_and!; [by intros y ?%elem_of_nil|reflexivity|apply not_elem_of_nil].
Qed.

Lemma themed_historical_frame_witness :
  ∃ full_df,
    get_themed_historical kahan_sum sample_source "campinas" [2020; 2019; 2020]
      ["Saude"; "Saude"] = Ok full_df
    ∧ index full_df = [2020; 2019; 2020]
    ∧ length (data full_df) = length [2020; 2019; 2020]
    ∧ ([2020; 2019; 2020] ≠ [] →
       columns full_df = unique (theme_column <$> ["Saude"; "Saude"]))
    ∧ ([2020; 2019; 2020] = [] → columns full_df = [])
    ∧ (∀ row, row ∈ data full_df →
         row.*1 = unique (theme_column <$> ["Saude"; "Saude"]))
    ∧ (∀ i y df theme,
         [2020; 2019; 2020] !! i = Some y → sample_source "campinas" y = Ok df →
         theme ∈ ["Saude"; "Saude"] →
         cell full_df i (theme_column theme)
         = Some (paid_theme_total kahan_sum df theme)).
Proof.
  apply (themed_historical_frame kahan_sum sample_source "campinas"
           [2020; 2019; 2020] ["Saude"; "Saude"]).
  intros y Hy.
  assert (y = 2019 ∨ y = 2020) as [-> | ->].
  { repeat (apply elem_of_cons in Hy as [->|Hy]); auto.
    by apply elem_of_nil in Hy. }
  - exists sample_table. split; [reflexivity|].
    intros theme Hin.
    assert (theme = "Saude") as ->.
    { repeat (apply elem_of_cons in Hin as [->|Hin]); auto.
      by apply elem_of_nil in Hin. }
    by_decide.
  - exists sample_table_2020. split; [reflexivity|].
    intros theme Hin.
    assert (theme = "Saude") as ->.
    { repeat (apply elem_of_cons in Hin as [->|Hin]); auto.
      by apply elem_of_nil in Hin. }
    by_decide.
Defined.

(** ** Missing selections *)

(** C3, as stated, fails on two counts.  The exception of a missing
    selection does not tell the city or the year: two calls for different
    cities that fail in different years raise the same [KeyError], and for
    a missing pair the exception names the subtheme alone.  And a call can
    fail before the year of the missing selection is reached, with the
    exception of the record source. *)
Lemma missing_selection_error_has_no_context :
  get_themed_historical kahan_sum sample_source "campinas" [2019; 2020]
    ["Educacao"]
    = Raise (KeyError "Educacao")
  ∧ get_themed_historical kahan_sum sample_source "santos" [2021] ["Educacao"]
    = Raise (KeyError "Educacao")
  ∧ get_subthemed_historical kahan_sum sample_source "campinas" [2019; 2020]
      [("Saude", "Clinicas")]
    = Raise (KeyError "Clinicas")
  ∧ get_themed_historical kahan_sum sample_source "campinas" [2022; 2020]
      ["Educacao"]
    = Raise (FetchError "HTTP Error 404").
Proof. split_and!; reflexivity. Qed.

Lemma missing_selection_raises_witness :
  ∃ e before y' after,
    [2019; 2020; 2021] = before ++ y' :: after
    ∧ get_themed_historical kahan_sum sample_source "campinas"
        [2019; 2020; 2021] ["Saude"; "Educacao"]
      = Raise e
    ∧ (∀ y0, y0 ∈ before →
         ∃ df0, sample_source "campinas" y0 = Ok df0
                ∧ ∀ theme0, theme0 ∈ ["Saude"; "Educacao"] →
                    theme0 ∈ ds_funcao_governo <$> only_paid df0)
    ∧ (sample_source "campinas" y' = Raise e
       ∨ ∃ df' found theme' rest,
           sample_source "campinas" y' = Ok df'
           ∧ ["Saude"; "Educacao"] = found ++ theme' :: rest
           ∧ (∀ theme0, theme0 ∈ found →
                theme0 ∈ ds_funcao_governo <$> only_paid df')
           ∧ (theme' ∉ ds_funcao_governo <$> only_paid df')
           ∧ e = KeyError theme').
Proof.
  apply (proj1 (missing_selection_raises kahan_sum sample_source "campinas"
                  [2019; 2020; 2021] 2021 sample_table_2021
                  ltac:(by_decide) eq_refl)
           ["Saude"; "Educacao"] "Saude").
  - by_decide.
  - by_decide.
Defined.

(** On that call the first failing step is the lookup of the second
    theme in the second year: the third year, which lacks the first
    theme, is not reached. *)
Example missing_selection_first_failure :
  get_themed_historical kahan_sum sample_source "campinas" [2019; 2020; 2021]
    ["Saude"; "Educacao"]
  = Raise (KeyError "Educacao").
Proof. reflexivity. Qed.

(** ** Discovered subthemes *)

Lemma all_subthemes_discovered_among_paid_witness :
  ("Vigilancia" ∉ get_all_subthemes_of (only_paid sample_table_2020) "Saude")
  ∧ ∃ row,
      [ [("vl_despesa_Saude_Hospitais", 100.75%float);
         ("vl_despesa_Saude_Clinicas", 50.25%float)];
        [("vl_despesa_Saude_Hospitais", 200%float)] ] !! 1%nat = Some row
      ∧ ∀ c, c ∈ row.*1 →
          ∃ theme' subtheme' r,
            theme' ∈ ["Saude"] ∧ r ∈ sample_table_2020
            ∧ tp_despesa r = paid_marker
            ∧ ds_funcao_governo r = theme'
            ∧ ds_subfuncao_governo r = subtheme'
            ∧ (theme', subtheme') ≠ ("Saude", "Vigilancia")
            ∧ c = subtheme_column theme' subtheme'.
Proof.
  apply (all_subthemes_discovered_among_paid kahan_sum sample_source "campinas"
           [2019; 2020] ["Saude"]
           (mkFrame ["vl_despesa_Saude_Hospitais"; "vl_despesa_Saude_Clinicas"]
              [2019; 2020]
              [ [("vl_despesa_Saude_Hospitais", 100.75%float);
                 ("vl_despesa_Saude_Clinicas", 50.25%float)];
                [("vl_despesa_Saude_Hospitais", 200%float)] ])
           1%nat 2020 sample_table_2020 "Saude" "Vigilancia").
  - vm_compute. reflexivity.
  - reflexivity.
  - reflexivity.
  - apply (proj1 (Forall_forall
      (λ r, ds_funcao_governo r = "Saude" →
            ds_subfuncao_governo r = "Vigilancia" →
            tp_despesa r ≠ paid_marker) sample_table_2020)).
    by_decide.
Defined.

(** ** The grouped frames *)

Lemma group_by_theme_rows_witness :
  loc "Saude" (group_by_theme kahan_sum sample_table)
  = Ok {| theme_total := kahan_sum [100.5; 50.25; 999; 0.25]%float;
          theme_subthemes := ["Hospitais"; "Clinicas"] |}
  ∧ loc "Cultura" (group_by_theme kahan_sum sample_table)
    = Raise (KeyError "Cultura").
Proof.
  split.
  - apply (proj1 (group_by_theme_rows kahan_sum sample_table "Saude")).
    by_decide.
  - apply (proj1 (proj2 (group_by_theme_rows kahan_sum sample_table "Cultura"))).
    by_decide.
Defined.

(** The subthemes [group_by_theme] records depend on the order of the
    records: the same records in another order give another frame. *)
Example group_by_theme_order_matters :
  group_by_theme kahan_sum (reverse sample_table_2020)
  ≠ group_by_theme kahan_sum sample_table_2020.
Proof. intros H. vm_compute in H. discriminate. Qed.


Lemma get_all_themes_valid_arguments_witness :
  ((∃ theme_df, loc "Saude" (group_by_theme kahan_sum sample_table) = Ok theme_df)
   ∧ (∃ by_subtheme,
        group_by_subtheme kahan_sum sample_table "Saude" = Ok by_subtheme
        ∧ by_subtheme ≠ [])
   ∧ get_all_subthemes_of sample_table "Saude" ≠ [])
  ∧ (loc "Cultura" (group_by_theme kahan_sum sample_table)
     = Raise (KeyError "Cultura")
     ∧ group_by_subtheme kahan_sum sample_table "Cultura"
       = Raise (KeyError "Cultura")
     ∧ get_all_subthemes_of sample_table "Cultura" = []).
Proof.
  split.
  - apply (proj1 (get_all_themes_valid_arguments kahan_sum sample_table "Saude")).
    by_decide.
  - apply (proj2 (get_all_themes_valid_arguments kahan_sum sample_table
                    "Cultura")).
    by_decide.
Defined.

Lemma enumerated_subtheme_lookup_witness :
  (∃ by_subtheme,
     group_by_subtheme kahan_sum sample_table "Saude" = Ok by_subtheme
     ∧ loc "Clinicas" by_subtheme
       = Ok (pair_total kahan_sum sample_table "Saude" "Clinicas"))
  ∧ (∃ by_subtheme,
     group_by_subtheme kahan_sum sample_table "Saude" = Ok by_subtheme
     ∧ loc "Museus" by_subtheme = Raise (KeyError "Museus")).
Proof.
  split.
  - apply (proj1 (enumerated_subtheme_lookup kahan_sum sample_table "Saude"
                    "Clinicas")).
    by_decide.
  - apply (proj2 (enumerated_subtheme_lookup kahan_sum sample_table "Saude"
                    "Museus")).
    + by_decide.
    + by_decide.
Defined.

(** ** The series of pairs and of discovered subthemes *)

Lemma subthemed_historical_frame_witness :
  ∃ full_df,
    get_subthemed_historical kahan_sum sample_source "campinas" [2020; 2019]
      [("Saude", "Hospitais")] = Ok full_df
    ∧ index full_df = [2020; 2019]
    ∧ length (data full_df) = length [2020; 2019]
    ∧ ([2020; 2019] ≠ [] →
       columns full_df
       = unique ((λ ts, subtheme_column ts.1 ts.2) <$> [("Saude", "Hospitais")]))
    ∧ ([2020; 2019] = [] → columns full_df = [])
    ∧ (∀ i y df ts,
         [2020; 2019] !! i = Some y → sample_source "campinas" y = Ok df →
         ts ∈ [("Saude", "Hospitais")] →
         (∀ ts', ts' ∈ [("Saude", "Hospitais")] →
                 subtheme_column ts'.1 ts'.2 = subtheme_column ts.1 ts.2 →
                 ts' = ts) →
         cell full_df i (subtheme_column ts.1 ts.2)
         = Some (pair_total kahan_sum (only_paid df) ts.1 ts.2)).
Proof.
  apply (subthemed_historical_frame kahan_sum sample_source "campinas"
           [2020; 2019] [("Saude", "Hospitais")]).
  intros y Hy.
  assert (y = 2019 ∨ y = 2020) as [-> | ->].
  { repeat (apply elem_of_cons in Hy as [->|Hy]); auto.
    by apply elem_of_nil in Hy. }
  - exists sample_table. split; [reflexivity|].
    intros ts ->%list_elem_of_singleton. by_decide.
  - exists sample_table_2020. split; [reflexivity|].
    intros ts ->%list_elem_of_singleton. by_decide.
Defined.

Lemma all_subthemes_historical_frame_witness :
  ∃ full_df,
    get_all_subthemes_historical kahan_sum sample_source "campinas" [2019; 2020]
      ["Saude"] = Ok full_df
    ∧ index full_df = [2019; 2020]
    ∧ length (data full_df) = length [2019; 2020]
    ∧ (∀ c, c ∈ columns full_df
            ↔ ∃ y df ts, y ∈ [2019; 2020]
                ∧ sample_source "campinas" y = Ok df
                ∧ ts ∈ discovered_pairs (only_paid df) ["Saude"]
                ∧ c = subtheme_column ts.1 ts.2)
    ∧ (∀ i y df,
         [2019; 2020] !! i = Some y → sample_source "campinas" y = Ok df →
         (∀ ts, ts ∈ discovered_pairs (only_paid df) ["Saude"] →
            (∀ ts', ts' ∈ discovered_pairs (only_paid df) ["Saude"] →
                    subtheme_column ts'.1 ts'.2 = subtheme_column ts.1 ts.2 →
                    ts' = ts) →
            cell full_df i (subtheme_column ts.1 ts.2)
            = Some (pair_total kahan_sum (only_paid df) ts.1 ts.2))
         ∧ (∀ c, (∀ ts, ts ∈ discovered_pairs (only_paid df) ["Saude"] →
                        subtheme_column ts.1 ts.2 ≠ c) →
                 cell full_df i c = None)).
Proof.
  apply (all_subthemes_historical_frame kahan_sum sample_source "campinas"
           [2019; 2020] ["Saude"]).
  - by_decide.
  - intros y Hy.
    assert (y = 2019 ∨ y = 2020) as [-> | ->].
    { repeat (apply elem_of_cons in Hy as [->|Hy]); auto.
      by apply elem_of_nil in Hy. }
    + exists sample_table. split; [reflexivity|].
      intros theme ->%list_elem_of_singleton. by_decide.
    + exists sample_table_2020. split; [reflexivity|].
      intros theme ->%list_elem_of_singleton. by_decide.
Defined.

Lemma empty_selection_frame_witness :
  get_themed_historical kahan_sum sample_source "campinas" [2019; 2020; 2021] []
    = Ok (mkFrame [] [2019; 2020; 2021] [ []; []; [] ])
  ∧ get_subthemed_historical kahan_sum sample_source "campinas"
      [2019; 2020; 2021] []
    = Ok (mkFrame [] [2019; 2020; 2021] [ []; []; [] ])
  ∧ get_all_subthemes_historical kahan_sum sample_source "campinas"
      [2019; 2020; 2021] []
    = Ok (mkFrame [] [2019; 2020; 2021] [ []; []; [] ]).
Proof.
  apply (empty_selection_frame kahan_sum sample_source "campinas"
           [2019; 2020; 2021]).
  intros y Hy.
  repeat (apply elem_of_cons in Hy as [->|Hy]);
    [by eexists..|by apply elem_of_nil in Hy].
Defined.

Lemma fetch_error_propagates_witness :
  get_themed_historical kahan_sum sample_source "campinas"
    ([2019] ++ 2022 :: [2020]) ["Saude"]
  = Raise (FetchError "HTTP Error 404").
Proof.
  apply (proj1 (fetch_error_propagates kahan_sum sample_source "campinas"
                  [2019] [2020] 2022 (FetchError "HTTP Error 404") eq_refl)
           ["Saude"]).
  intros y' ->%list_elem_of_singleton. exists sample_table.
  split; [reflexivity|]. intros theme ->%list_elem_of_singleton. by_decide.
Defined.

Lemma all_subthemes_as_subthemed_witness :
  get_all_subthemes_historical kahan_sum sample_source "campinas" [2019; 2019]
    ["Saude"]
  = get_subthemed_historical kahan_sum sample_source "campinas" [2019; 2019]
      [("Saude", "Hospitais"); ("Saude", "Clinicas")].
Proof.
  apply (all_subthemes_as_subthemed kahan_sum sample_source "campinas"
           [2019; 2019] ["Saude"] [("Saude", "Hospitais"); ("Saude", "Clinicas")]).
  intros y Hy.
  assert (y = 2019) as ->.
  { repeat (apply elem_of_cons in Hy as [->|Hy]); auto.
    by apply elem_of_nil in Hy. }
  exists sample_table. split_and!; [reflexivity| |reflexivity].
  intros theme ->%list_elem_of_singleton. by_decide.
Defined.

Lemma subthemed_last_request_wins_witness :
  ∃ full_df,
    get_subthemed_historical kahan_sum sample_source_shared "campinas" [2019]
      ([("A_B", "C")] ++ ("A", "B_C") :: [])
    = Ok full_df
    ∧ ∀ i y df,
        [2019] !! i = Some y → sample_source_shared "campinas" y = Ok df →
        cell full_df i (subtheme_column ("A", "B_C").1 ("A", "B_C").2)
        = Some (pair_total kahan_sum (only_paid df) ("A", "B_C").1 ("A", "B_C").2).
Proof.
  apply (subthemed_last_request_wins kahan_sum sample_source_shared "campinas"
           [2019] [("A_B", "C")] [] ("A", "B_C")).
  - intros y _. exists sample_table_shared. split; [reflexivity|].
    intros ts' Hts'.
    assert (ts' = ("A_B", "C") ∨ ts' = ("A", "B_C")) as [-> | ->].
    { repeat (apply elem_of_cons in Hts' as [->|Hts']); auto.
      by apply elem_of_nil in Hts'. }
    + by_decide.
    + by_decide.
  - by intros ts' ?%elem_of_nil.
Defined.

(** With both pairs requested, the shared column holds the later one. *)
Example shared_column_overwritten :
  get_subthemed_historical kahan_sum sample_source_shared "campinas" [2019]
    [("A_B", "C"); ("A", "B_C")]
  = Ok (mkFrame ["vl_despesa_A_B_C"] [2019] [ [("vl_despesa_A_B_C", 7%float)] ]).
Proof. vm_compute. reflexivity. Qed.
